(** * Order tracking core: a shallow embedding of the Python sources

    Embedded files:
    - [backend/app/models.py]            (the [Order] dataclass),
    - [backend/app/in_memory_storage.py] (the [InMemoryStorage] class),
    - [backend/app/order_tracker.py]     (the [OrderTracker] class).

    Python objects live in an object store and are named by references, the
    wall clock is an oracle read once per [datetime.now()] call, and a method
    that can raise returns an outcome that carries the state reached when the
    exception left the method.  The generic key-value methods of the storage
    and its [delete_order], none of which the tracker calls, are left out. *)

From Stdlib Require Import Bool Arith NArith ZArith QArith Lia List Ascii String.
Import ListNotations.

#[local] Open Scope string_scope.
#[local] Open Scope nat_scope.

(** ** Dynamically typed values

    The tracker's methods test the run-time type of their arguments, so an
    argument is any of the Python values that the callers and the test-suite
    pass: [None], booleans, integers, floats, strings, lists and
    dictionaries with string keys.  A float carries its numeric value as a
    rational; the code only looks at its type and at whether it is zero. *)

#[local] Set Warnings "-register-all".

Inductive PyVal : Type :=
| PyNone
| PyBool (b : bool)
| PyInt (z : Z)
| PyFloat (q : Q)
| PyStr (s : string)
| PyList (l : list PyVal)
| PyDict (d : list (string * PyVal)).

(** [bool(v)]: the truth value Python gives [v] in [not v]. *)
Definition truthy (v : PyVal) : bool :=
  match v with
  | PyNone => false
  | PyBool b => b
  | PyInt z => negb (z =? 0)%Z
  | PyFloat q => negb (Qnum q =? 0)%Z
  | PyStr s => negb (s =? "")%string
  | PyList l => match l with [] => false | _ :: _ => true end
  | PyDict d => match d with [] => false | _ :: _ => true end
  end.

(** [isinstance(v, str)]. *)
Definition isinstance_str (v : PyVal) : bool :=
  match v with PyStr _ => true | _ => false end.

(** [isinstance(v, int)]: [bool] is a subclass of [int] in Python, so both
    [True] and [False] are instances of [int]. *)
Definition isinstance_int (v : PyVal) : bool :=
  match v with PyInt _ | PyBool _ => true | _ => false end.

(** The integer an [int] instance denotes ([True] is 1, [False] is 0).  The
    code reads it only after [isinstance_int] has succeeded. *)
Definition int_value (v : PyVal) : Z :=
  match v with
  | PyInt z => z
  | PyBool true => 1%Z
  | _ => 0%Z
  end.

(** The characters of a [str] instance, read only after [isinstance_str] has
    succeeded. *)
Definition str_value (v : PyVal) : string :=
  match v with PyStr s => s | _ => "" end.

(** ** Naive [datetime] values

    The objects [datetime.now()] returns, which carry no time zone; they are
    the only timestamps the tracker stores. *)

Module datetime.

#[local] Open Scope N_scope.

Record t : Type := mk {
  year : N;
  month : N;
  day : N;
  hour : N;
  minute : N;
  second : N;
  microsecond : N
}.

Definition is_leap (y : N) : bool :=
  ((y mod 4 =? 0) && negb (y mod 100 =? 0)) || (y mod 400 =? 0).

Definition days_in_month (y m : N) : N :=
  match m with
  | 2 => if is_leap y then 29 else 28
  | 4 | 6 | 9 | 11 => 30
  | _ => 31
  end.

(** The ranges the [datetime] constructor enforces; every [datetime] object
    of a running program satisfies them. *)
Definition valid (d : t) : bool :=
  (1 <=? year d) && (year d <=? 9999) &&
  (1 <=? month d) && (month d <=? 12) &&
  (1 <=? day d) && (day d <=? days_in_month (year d) (month d)) &&
  (hour d <? 24) && (minute d <? 60) && (second d <? 60) &&
  (microsecond d <? 1000000).

(** Comparison of two naive datetimes: lexicographic on the seven fields. *)
Definition lex (c1 c2 : comparison) : comparison :=
  match c1 with Eq => c2 | _ => c1 end.

Definition fields (d : t) : list N :=
  [year d; month d; day d; hour d; minute d; second d; microsecond d].

Fixpoint compare_fields (a b : list N) : comparison :=
  match a, b with
  | x :: a', y :: b' => lex (x ?= y) (compare_fields a' b')
  | [], [] => Eq
  | [], _ :: _ => Lt
  | _ :: _, [] => Gt
  end.

Definition compare (a b : t) : comparison :=
  compare_fields (fields a) (fields b).

(** [a <= b] on datetimes. *)
Definition leb (a b : t) : bool :=
  match compare a b with Gt => false | _ => true end.

Definition le (a b : t) : Prop := leb a b = true.

(** *** ISO 8601 text

    [isoformat] and [fromisoformat] belong to Python's standard library.
    [isoformat] follows its documented output for a naive datetime:
    [YYYY-MM-DDTHH:MM:SS], followed by [.ffffff] when the microsecond is not
    zero.  [fromisoformat] reads the strings of that shape (with any single
    character as the date/time separator) and checks the field ranges as the
    constructor does; the shortened forms and the UTC offsets that the
    library also reads are rejected here. *)

Definition digit_char (d : N) : ascii := ascii_of_N (48 + d).

Definition digit_val (c : ascii) : option N :=
  let n := N_of_ascii c in
  if (48 <=? n) && (n <=? 57) then Some (n - 48) else None.

(** [zpad w n]: the [w] decimal digits of [n], most significant first; for
    [n < 10 ^ w] this is what the format [%0wd] prints. *)
Fixpoint zpad (w : nat) (n : N) : string :=
  match w with
  | O => ""
  | S w' => String (digit_char ((n / 10 ^ N.of_nat w') mod 10)) (zpad w' n)
  end.

Definition isoformat (d : t) : string :=
  zpad 4 (year d) ++ "-" ++ zpad 2 (month d) ++ "-" ++ zpad 2 (day d) ++ "T" ++
  zpad 2 (hour d) ++ ":" ++ zpad 2 (minute d) ++ ":" ++ zpad 2 (second d) ++
  (if microsecond d =? 0 then "" else "." ++ zpad 6 (microsecond d)).

Fixpoint read_digits (w : nat) (acc : N) (s : string) : option (N * string) :=
  match w with
  | O => Some (acc, s)
  | S w' =>
      match s with
      | String c rest =>
          match digit_val c with
          | Some d => read_digits w' (10 * acc + d) rest
          | None => None
          end
      | EmptyString => None
      end
  end.

Definition expect (c : ascii) (s : string) : option string :=
  match s with
  | String c' rest => if Ascii.eqb c c' then Some rest else None
  | EmptyString => None
  end.

Definition skip_char (s : string) : option string :=
  match s with
  | String _ rest => Some rest
  | EmptyString => None
  end.

Definition read_fraction (s : string) : option N :=
  match s with
  | EmptyString => Some 0
  | String c rest =>
      if Ascii.eqb c "."
      then match read_digits 6 0 rest with
           | Some (us, EmptyString) => Some us
           | _ => None
           end
      else None
  end.

Definition obind {A B : Type} (o : option A) (k : A -> option B) : option B :=
  match o with Some a => k a | None => None end.

(** [None] stands for the [ValueError] the library raises. *)
Definition fromisoformat (s : string) : option t :=
  obind (read_digits 4 0 s) (fun '(y, s) =>
  obind (expect "-" s) (fun s =>
  obind (read_digits 2 0 s) (fun '(m, s) =>
  obind (expect "-" s) (fun s =>
  obind (read_digits 2 0 s) (fun '(d, s) =>
  obind (skip_char s) (fun s =>
  obind (read_digits 2 0 s) (fun '(h, s) =>
  obind (expect ":" s) (fun s =>
  obind (read_digits 2 0 s) (fun '(mi, s) =>
  obind (expect ":" s) (fun s =>
  obind (read_digits 2 0 s) (fun '(sec, s) =>
  obind (read_fraction s) (fun us =>
  let r := mk y m d h mi sec us in
  if valid r then Some r else None)))))))))))).

End datetime.

(** ** The [Order] dataclass and its data representation *)

(** The fields of one [Order] object.  The string fields hold the characters
    of the [str] instances that the tracker, after its [isinstance] checks,
    and [from_dict] store in them; [quantity] holds the stored value itself,
    which for an instance of [int] is an integer or a boolean. *)
Record Order : Type := mkOrder {
  order_id : string;
  item_name : string;
  quantity : PyVal;
  customer_id : string;
  status : string;
  created_at : option datetime.t;
  updated_at : option datetime.t
}.

(** The dictionary built by [Order.to_dict] and read by [Order.from_dict].
    The four keys that [from_dict] indexes directly are always present; the
    key ["status"], read with [data.get], may be missing ([None]); for the two
    timestamps [None] is a missing key or the value [None], which [from_dict]
    treats alike. *)
Record OrderData : Type := mkOrderData {
  data_order_id : string;
  data_item_name : string;
  data_quantity : PyVal;
  data_customer_id : string;
  data_status : option string;
  data_created_at : option string;
  data_updated_at : option string
}.

Definition set_status (s : string) (o : Order) : Order :=
  mkOrder (order_id o) (item_name o) (quantity o) (customer_id o) s
          (created_at o) (updated_at o).

Definition set_created_at (t : option datetime.t) (o : Order) : Order :=
  mkOrder (order_id o) (item_name o) (quantity o) (customer_id o) (status o)
          t (updated_at o).

Definition set_updated_at (t : option datetime.t) (o : Order) : Order :=
  mkOrder (order_id o) (item_name o) (quantity o) (customer_id o) (status o)
          (created_at o) t.

(** ** Insertion-ordered dictionaries with string keys *)

Section Dict.
Context {V : Type}.

Definition dict : Type := list (string * V).

Fixpoint dict_get (d : dict) (k : string) : option V :=
  match d with
  | [] => None
  | (k', v) :: rest => if (k' =? k)%string then Some v else dict_get rest k
  end.

(** [d[k] = v]: overwrite in place, or append a new entry. *)
Fixpoint dict_set (d : dict) (k : string) (v : V) : dict :=
  match d with
  | [] => [(k, v)]
  | (k', v') :: rest =>
      if (k' =? k)%string then (k', v) :: rest else (k', v') :: dict_set rest k v
  end.

Definition dict_values (d : dict) : list V := map snd d.

(** [k in d]. *)
Definition dict_mem (d : dict) (k : string) : bool :=
  match dict_get d k with Some _ => true | None => false end.

(** [del d[k]], for a key that is present. *)
Fixpoint dict_del (d : dict) (k : string) : dict :=
  match d with
  | [] => []
  | (k', v) :: rest =>
      if (k' =? k)%string then dict_del rest k else (k', v) :: dict_del rest k
  end.

End Dict.

Arguments dict V : clear implicits.

(** ** Program state, clock and exceptions *)

Definition ref : Type := nat.

(** [clock n] is what the [n]-th call of [datetime.now()] returns and [ticks]
    counts the calls made so far; [heap] gives the fields of every object
    and [next_ref] is the reference of the next object to be created;
    [orders] is the dictionary [InMemoryStorage.orders] of the storage the
    tracker was built with. *)
Record World : Type := mkWorld {
  clock : nat -> datetime.t;
  ticks : nat;
  heap : ref -> Order;
  next_ref : ref;
  orders : dict ref
}.

Inductive Exn : Type :=
| ValueError (msg : string).

Inductive Outcome (A : Type) : Type :=
| Ok (a : A) (w : World)
| Raise (e : Exn) (w : World).

Arguments Ok {A} a w.
Arguments Raise {A} e w.

Definition M (A : Type) : Type := World -> Outcome A.

Definition ret {A : Type} (a : A) : M A := fun w => Ok a w.

Definition bind {A B : Type} (m : M A) (k : A -> M B) : M B :=
  fun w =>
    match m w with
    | Ok a w' => k a w'
    | Raise e w' => Raise e w'
    end.

Definition raise {A : Type} (e : Exn) : M A := fun w => Raise e w.

Declare Scope py_scope.
Delimit Scope py_scope with py.
Notation "x <- m ;; k" := (bind m (fun x => k))
  (at level 61, m at next level, right associativity) : py_scope.
Notation "m ;; k" := (bind m (fun _ => k))
  (at level 61, right associativity) : py_scope.
#[local] Open Scope py_scope.

(** The state an outcome ends in. *)
Definition final {A : Type} (r : Outcome A) : World :=
  match r with Ok _ w => w | Raise _ w => w end.

(** Whether the call returned, and what it returned. *)
Definition is_ok {A : Type} (r : Outcome A) : bool :=
  match r with Ok _ _ => true | Raise _ _ => false end.

Definition returned {A : Type} (r : Outcome A) : option A :=
  match r with Ok a _ => Some a | Raise _ _ => None end.

(** [datetime.now()]. *)
Definition now : M datetime.t :=
  fun w =>
    Ok (clock w (ticks w))
       (mkWorld (clock w) (S (ticks w)) (heap w) (next_ref w) (orders w)).

(** Creation of an object with the given fields. *)
Definition alloc (o : Order) : M ref :=
  fun w =>
    Ok (next_ref w)
       (mkWorld (clock w) (ticks w)
                (fun r => if r =? next_ref w then o else heap w r)
                (S (next_ref w)) (orders w)).

(** Reading the fields of the object behind a reference. *)
Definition deref (r : ref) : M Order := fun w => Ok (heap w r) w.

(** Attribute assignment on the object behind a reference. *)
Definition assign (r : ref) (f : Order -> Order) : M unit :=
  fun w =>
    Ok tt
       (mkWorld (clock w) (ticks w)
                (fun r' => if r' =? r then f (heap w r) else heap w r')
                (next_ref w) (orders w)).

Definition get_orders : M (dict ref) := fun w => Ok (orders w) w.

Definition put_orders (d : dict ref) : M unit :=
  fun w => Ok tt (mkWorld (clock w) (ticks w) (heap w) (next_ref w) d).

Fixpoint mapM {A B : Type} (f : A -> M B) (l : list A) : M (list B) :=
  match l with
  | [] => ret []
  | a :: l' => b <- f a ;; bs <- mapM f l' ;; ret (b :: bs)
  end.

Fixpoint filterM {A : Type} (f : A -> M bool) (l : list A) : M (list A) :=
  match l with
  | [] => ret []
  | a :: l' =>
      keep <- f a ;; rest <- filterM f l' ;;
      ret (if keep then a :: rest else rest)
  end.

(** ** models.py: the methods of [Order] *)

Module Order.

(** [__post_init__]. *)
Definition post_init (self : ref) : M unit :=
  o <- deref self ;;
  match created_at o with
  | None => t <- now ;; assign self (set_created_at (Some t))
  | Some _ => ret tt
  end ;;
  o <- deref self ;;
  match updated_at o with
  | None => t <- now ;; assign self (set_updated_at (Some t))
  | Some _ => ret tt
  end.

(** The constructor the dataclass generates: it stores the arguments in a
    new object and runs [__post_init__] on it. *)
Definition init (order_id item_name : string) (quantity : PyVal)
    (customer_id status : string) (created_at updated_at : option datetime.t)
    : M ref :=
  self <- alloc (mkOrder order_id item_name quantity customer_id status
                         created_at updated_at) ;;
  post_init self ;;
  ret self.

Definition update_status (self : ref) (new_status : string) : M unit :=
  assign self (set_status new_status) ;;
  t <- now ;;
  assign self (set_updated_at (Some t)).

(** A [datetime] object is always true in a condition, so
    [x.isoformat() if x else None] is [None] only for [x = None]. *)
Definition isoformat_opt (x : option datetime.t) : option string :=
  match x with
  | Some d => Some (datetime.isoformat d)
  | None => None
  end.

(** The dictionary [to_dict] builds from the fields of [self]. *)
Definition as_dict (o : Order) : OrderData :=
  mkOrderData (order_id o) (item_name o) (quantity o) (customer_id o)
              (Some (status o))
              (isoformat_opt (created_at o))
              (isoformat_opt (updated_at o)).

Definition to_dict (self : ref) : M OrderData :=
  o <- deref self ;;
  ret (as_dict o).

(** [datetime.fromisoformat(x)] under the guard [key in data and data[key]]:
    a missing key, [None] and the empty string are skipped. *)
Definition parse_timestamp (x : option string) : M (option datetime.t) :=
  match x with
  | None => ret None
  | Some s =>
      if (s =? "")%string then ret None
      else match datetime.fromisoformat s with
           | Some d => ret (Some d)
           | None => raise (ValueError ("Invalid isoformat string: '" ++ s ++ "'"))
           end
  end.

Definition from_dict (data : OrderData) : M ref :=
  created_at <- parse_timestamp (data_created_at data) ;;
  updated_at <- parse_timestamp (data_updated_at data) ;;
  init (data_order_id data) (data_item_name data) (data_quantity data)
       (data_customer_id data)
       (match data_status data with Some s => s | None => "pending" end)
       created_at updated_at.

End Order.

(** ** in_memory_storage.py: the order methods of [InMemoryStorage] *)

Module InMemoryStorage.

Definition save_order (order : ref) : M unit :=
  o <- deref order ;;
  d <- get_orders ;;
  put_orders (dict_set d (order_id o) order).

Definition get_order (order_id : string) : M (option ref) :=
  d <- get_orders ;;
  ret (dict_get d order_id).

Definition get_all_orders : M (list ref) :=
  d <- get_orders ;;
  ret (dict_values d).

Definition get_orders_by_status (status' : string) : M (list ref) :=
  d <- get_orders ;;
  filterM (fun order => o <- deref order ;; ret (status o =? status')%string)
          (dict_values d).

Definition get_orders_by_customer (customer_id' : string) : M (list ref) :=
  d <- get_orders ;;
  filterM (fun order =>
             o <- deref order ;; ret (customer_id o =? customer_id')%string)
          (dict_values d).

Definition delete_order (order_id : string) : M bool :=
  d <- get_orders ;;
  if dict_mem d order_id
  then put_orders (dict_del d order_id) ;; ret true
  else ret false.

(** [clear] empties both dictionaries of the storage; the generic one is not
    part of the state here, as no method that is modelled reads it. *)
Definition clear : M unit := put_orders [].

End InMemoryStorage.

(** ** order_tracker.py: the methods of [OrderTracker] *)

Module OrderTracker.

(** [not v or not isinstance(v, str)]. *)
Definition missing_str (v : PyVal) : bool :=
  negb (truthy v) || negb (isinstance_str v).

Definition create_order (order_id item_name quantity customer_id : PyVal)
    : M OrderData :=
  if missing_str order_id then raise (ValueError "order_id is mandatory")
  else if missing_str item_name then raise (ValueError "item_name is mandatory")
  else if negb (isinstance_int quantity) || (int_value quantity <=? 0)%Z
  then raise (ValueError "quantity is mandatory and must be bigger than 0")
  else if missing_str customer_id
  then raise (ValueError "customer_id is mandatory")
  else
    existing <- InMemoryStorage.get_order (str_value order_id) ;;
    match existing with
    | Some _ =>
        raise (ValueError ("Order with ID '" ++ str_value order_id ++
                           "' already exists"))
    | None =>
        order <- Order.init (str_value order_id) (str_value item_name)
                            quantity (str_value customer_id)
                            "pending" None None ;;
        InMemoryStorage.save_order order ;;
        Order.to_dict order
    end.

Definition get_order (order_id : PyVal) : M (option OrderData) :=
  if missing_str order_id then raise (ValueError "order_id is mandatory")
  else
    order <- InMemoryStorage.get_order (str_value order_id) ;;
    match order with
    | Some o => d <- Order.to_dict o ;; ret (Some d)
    | None => ret None
    end.

Definition update_order_status (order_id new_status : PyVal)
    : M (option OrderData) :=
  if missing_str order_id then raise (ValueError "order_id is mandatory")
  else if missing_str new_status
  then raise (ValueError "new_status is mandatory")
  else
    order <- InMemoryStorage.get_order (str_value order_id) ;;
    match order with
    | None => ret None
    | Some o =>
        Order.update_status o (str_value new_status) ;;
        InMemoryStorage.save_order o ;;
        d <- Order.to_dict o ;;
        ret (Some d)
    end.

Definition get_all_orders : M (list OrderData) :=
  orders <- InMemoryStorage.get_all_orders ;;
  mapM Order.to_dict orders.

Definition get_orders_by_status (status : PyVal) : M (list OrderData) :=
  if missing_str status then raise (ValueError "status is mandatory")
  else
    orders <- InMemoryStorage.get_orders_by_status (str_value status) ;;
    mapM Order.to_dict orders.

Definition get_orders_by_customer (customer_id : PyVal) : M (list OrderData) :=
  if missing_str customer_id then raise (ValueError "customer_id is mandatory")
  else
    orders <- InMemoryStorage.get_orders_by_customer (str_value customer_id) ;;
    mapM Order.to_dict orders.

End OrderTracker.

(** ** Runs of the tracker

    A state is reachable when the tracker, built over an empty storage, gets
    there by a sequence of calls of its public methods with any arguments,
    whether a call returns or raises. *)

Inductive Call : Type :=
| CreateOrder (order_id item_name quantity customer_id : PyVal)
| GetOrder (order_id : PyVal)
| UpdateOrderStatus (order_id new_status : PyVal)
| GetAllOrders
| GetOrdersByStatus (status : PyVal)
| GetOrdersByCustomer (customer_id : PyVal).

(** What a call hands back: a dictionary, a dictionary or [None], or a list
    of dictionaries. *)
Inductive Result : Type :=
| RDict (d : OrderData)
| ROptional (d : option OrderData)
| RList (l : list OrderData).

Definition exec (c : Call) : M Result :=
  match c with
  | CreateOrder a b q d =>
      r <- OrderTracker.create_order a b q d ;; ret (RDict r)
  | GetOrder a =>
      r <- OrderTracker.get_order a ;; ret (ROptional r)
  | UpdateOrderStatus a s =>
      r <- OrderTracker.update_order_status a s ;; ret (ROptional r)
  | GetAllOrders =>
      r <- OrderTracker.get_all_orders ;; ret (RList r)
  | GetOrdersByStatus s =>
      r <- OrderTracker.get_orders_by_status s ;; ret (RList r)
  | GetOrdersByCustomer c =>
      r <- OrderTracker.get_orders_by_customer c ;; ret (RList r)
  end.

Definition run (c : Call) (w : World) : World := final (exec c w).

Inductive reachable : World -> Prop :=
| reach_init : forall w, orders w = [] -> reachable w
| reach_step : forall w c, reachable w -> reachable (run c w).

(** A call either leaves the state as it was, or it is a [create_order] that
    stored a new object, or an [update_order_status] that changed a stored
    one. *)
Definition created (w w' : World) (k : string) (o : Order) : Prop :=
  created_at o = Some (clock w (ticks w)) /\
  updated_at o = Some (clock w (S (ticks w))) /\
  clock w' = clock w /\
  ticks w' = S (S (ticks w)) /\
  (forall r, heap w' r = if r =? next_ref w then o else heap w r) /\
  orders w' = dict_set (orders w) k (next_ref w).

Definition updated (w w' : World) (k : string) (r : ref) (s : string) : Prop :=
  dict_get (orders w) k = Some r /\
  clock w' = clock w /\
  ticks w' = S (ticks w) /\
  (forall r', heap w' r' =
              if r' =? r
              then set_updated_at (Some (clock w (ticks w)))
                                  (set_status s (heap w r))
              else heap w r') /\
  orders w' = dict_set (orders w) (order_id (heap w r)) r.

(** The clock never runs backwards from one reading to the next. *)
Definition clock_monotone (c : nat -> datetime.t) : Prop :=
  forall n, datetime.le (c n) (c (S n)).

(** The timestamps of an object are set, ordered, and not later than any
    reading the clock has yet to give. *)
Definition timestamps_ok (w : World) (o : Order) : Prop :=
  exists c u,
    created_at o = Some c /\ updated_at o = Some u /\
    datetime.le c u /\
    forall n, ticks w <= n -> datetime.le u (clock w n).

Definition stored_timestamps_ok (w : World) : Prop :=
  forall k r, In (k, r) (orders w) -> timestamps_ok w (heap w r).

(** ** The validation checks

    What each check of the code accepts, said directly: a string argument
    must be a string that is not empty, and the quantity an instance of
    [int] strictly greater than 0.  The checks are made in the order the
    arguments are listed and the first one that fails gives the reason. *)

(** [v] is a string and is not empty. *)
Definition nonempty_str (v : PyVal) : bool :=
  isinstance_str v && negb (str_value v =? "")%string.

(** [v] is an instance of [int] and is strictly greater than 0.  This is
    the test of the code, for which [True] is the positive integer 1; the
    documented rule, which refuses booleans, is [documented_quantity]
    below. *)
Definition positive_int (v : PyVal) : bool :=
  isinstance_int v && (0 <? int_value v)%Z.

Fixpoint first_violation (checks : list (bool * string)) : option string :=
  match checks with
  | [] => None
  | (passed, reason) :: rest =>
      if passed then first_violation rest else Some reason
  end.

Definition quantity_reason : string :=
  "quantity is mandatory and must be bigger than 0".

(** The checks of each operation as the code makes them, in order, each
    with the reason it fails with. *)
Definition checks_of (c : Call) : list (bool * string) :=
  match c with
  | CreateOrder order_id item_name quantity customer_id =>
      [ (nonempty_str order_id, "order_id is mandatory");
        (nonempty_str item_name, "item_name is mandatory");
        (positive_int quantity, quantity_reason);
        (nonempty_str customer_id, "customer_id is mandatory") ]
  | GetOrder order_id =>
      [ (nonempty_str order_id, "order_id is mandatory") ]
  | UpdateOrderStatus order_id new_status =>
      [ (nonempty_str order_id, "order_id is mandatory");
        (nonempty_str new_status, "new_status is mandatory") ]
  | GetAllOrders => []
  | GetOrdersByStatus status =>
      [ (nonempty_str status, "status is mandatory") ]
  | GetOrdersByCustomer customer_id =>
      [ (nonempty_str customer_id, "customer_id is mandatory") ]
  end.

(** The quantity rule as the specification words it: an integer strictly
    greater than 0, booleans refused. *)
Definition documented_quantity (v : PyVal) : bool :=
  match v with
  | PyInt z => (0 <? z)%Z
  | _ => false
  end.

(** The checks of [create_order] as the specification documents them. *)
Definition documented_create_order_checks
    (order_id item_name quantity customer_id : PyVal) : list (bool * string) :=
  [ (nonempty_str order_id, "order_id is mandatory");
    (nonempty_str item_name, "item_name is mandatory");
    (documented_quantity quantity, quantity_reason);
    (nonempty_str customer_id, "customer_id is mandatory") ].

(** The reasons a validation failure can carry. *)
Definition validation_reasons : list string :=
  [ "order_id is mandatory"; "item_name is mandatory"; quantity_reason;
    "customer_id is mandatory"; "new_status is mandatory";
    "status is mandatory" ].

(** The message of the duplicate-identifier failure of [create_order]. *)
Definition conflict_reason (order_id : string) : string :=
  "Order with ID '" ++ order_id ++ "' already exists".

(** Selection of the dictionaries of a list by one of their fields. *)
Definition has_status (s : string) (d : OrderData) : bool :=
  match data_status d with
  | Some s' => (s' =? s)%string
  | None => false
  end.

Definition has_customer (c : string) (d : OrderData) : bool :=
  (data_customer_id d =? c)%string.

(** ** Concrete clocks and states used in the examples *)

(** A clock that advances by one microsecond per reading. *)
Definition us_clock (n : nat) : datetime.t :=
  datetime.mk 2025 7 31 12 0 0 (N.of_nat n).

(** The clock of the test-suite, which always gives the same instant. *)
Definition frozen_clock (n : nat) : datetime.t :=
  datetime.mk 2025 7 31 12 0 0 0.

(** A wall clock across the end of daylight saving time: the local time
    read by [datetime.now()] goes from just before 03:00 back to 02:00. *)
Definition fallback_clock (n : nat) : datetime.t :=
  match n with
  | 0 => datetime.mk 2025 10 26 2 59 59 999998
  | 1 => datetime.mk 2025 10 26 2 59 59 999999
  | _ => datetime.mk 2025 10 26 2 0 0 0
  end.

Definition blank_order : Order := mkOrder "" "" PyNone "" "" None None.

(** A tracker over an empty storage, before any call. *)
Definition empty_world (c : nat -> datetime.t) : World :=
  mkWorld c 0 (fun _ => blank_order) 0 [].

(** The state after one order has been created. *)
Definition one_order_world : World :=
  run (CreateOrder (PyStr "ORD001") (PyStr "Laptop") (PyInt 2) (PyStr "CUST001"))
      (empty_world us_clock).

(** One order, created just before the clock is set back. *)
Definition fallback_world : World :=
  run (CreateOrder (PyStr "ORD001") (PyStr "Laptop") (PyInt 2) (PyStr "CUST001"))
      (empty_world fallback_clock).

(** Two orders, the second of them shipped. *)
Definition two_orders_world : World :=
  run (UpdateOrderStatus (PyStr "ORD002") (PyStr "shipped"))
    (run (CreateOrder (PyStr "ORD002") (PyStr "Mouse") (PyInt 1) (PyStr "CUST002"))
       one_order_world).

(** ** app.py: the request handlers

    A handler gets what Flask passes it (the path parameter, the query
    argument) and gives the response body and status.  [abort(code)] ends
    the request with the response of the error handler registered for
    [code].  The handlers that read a body are modelled from the point where
    [request.get_json()] has returned, and take the value it returned, which
    is a dictionary for a JSON object and [None] for the JSON value [null].
    A request that [get_json] refuses (no JSON content type, text that is
    not JSON) never reaches that point, and a body that is a JSON array,
    string or number is not covered. *)

Module App.

Inductive Body : Type :=
| JOrder (order : OrderData)
| JOrders (orders : list OrderData) (count : nat)
| JOrdersBy (orders : list OrderData) (count : nat) (key value : string)
| JError (error : string).

Definition Response : Type := (Body * nat)%type.

Definition Handler : Type := World -> Response * World.

(** The handlers registered for the codes 400 and 404, and for an exception
    that no [except] clause catches. *)
Definition bad_request : Response := (JError "Bad request", 400).
Definition not_found : Response := (JError "Not found", 404).
Definition internal_error : Response := (JError "Internal server error", 500).

Definition required_fields : list string :=
  ["order_id"; "item_name"; "quantity"; "customer_id"].

(** [not data]: the body is [None] or the empty object. *)
Definition no_data (data : option (dict PyVal)) : bool :=
  match data with
  | None | Some [] => true
  | Some (_ :: _) => false
  end.

Definition members (data : option (dict PyVal)) : dict PyVal :=
  match data with Some d => d | None => [] end.

Definition create_order (data : option (dict PyVal)) : Handler :=
  fun w =>
    if no_data data then (bad_request, w)
    else if existsb (fun field => negb (dict_mem (members data) field))
                    required_fields
    then (bad_request, w)
    else
      match dict_get (members data) "order_id",
            dict_get (members data) "item_name",
            dict_get (members data) "quantity",
            dict_get (members data) "customer_id" with
      | Some order_id, Some item_name, Some quantity, Some customer_id =>
          match OrderTracker.create_order order_id item_name quantity
                                          customer_id w with
          | Ok order w' => ((JOrder order, 201), w')
          | Raise (ValueError _) w' => (bad_request, w')
          end
      | _, _, _, _ => (internal_error, w)
      end.

Definition get_order (order_id : string) : Handler :=
  fun w =>
    match OrderTracker.get_order (PyStr order_id) w with
    | Ok None w' => (not_found, w')
    | Ok (Some order) w' => ((JOrder order, 200), w')
    | Raise (ValueError _) w' => (bad_request, w')
    end.

Definition update_order_status (order_id : string)
    (data : option (dict PyVal)) : Handler :=
  fun w =>
    if no_data data || negb (dict_mem (members data) "status")
    then (bad_request, w)
    else
      match dict_get (members data) "status" with
      | Some status =>
          match OrderTracker.update_order_status (PyStr order_id) status w with
          | Ok None w' => (not_found, w')
          | Ok (Some order) w' => ((JOrder order, 200), w')
          | Raise (ValueError _) w' => (bad_request, w')
          end
      | None => (internal_error, w)
      end.

(** [customer_id] is [request.args.get("customer_id")]: the argument of the
    query, or [None] when the query has none. *)
Definition get_all_orders (customer_id : option string) : Handler :=
  fun w =>
    match customer_id with
    | Some c =>
        if negb (c =? "")%string
        then
          match OrderTracker.get_orders_by_customer (PyStr c) w with
          | Ok orders w' =>
              ((JOrdersBy orders (List.length orders) "customer_id" c, 200), w')
          | Raise (ValueError _) w' => (bad_request, w')
          end
        else
          match OrderTracker.get_all_orders w with
          | Ok orders w' => ((JOrders orders (List.length orders), 200), w')
          | Raise _ w' => (internal_error, w')
          end
    | None =>
        match OrderTracker.get_all_orders w with
        | Ok orders w' => ((JOrders orders (List.length orders), 200), w')
        | Raise _ w' => (internal_error, w')
        end
    end.

Definition get_orders_by_status (status : string) : Handler :=
  fun w =>
    match OrderTracker.get_orders_by_status (PyStr status) w with
    | Ok orders w' =>
        ((JOrdersBy orders (List.length orders) "status" status, 200), w')
    | Raise (ValueError _) w' => (bad_request, w')
    end.

End App.

(** ** Sequences of calls and the shape of stored orders *)

Fixpoint runs (cs : list Call) (w : World) : World :=
  match cs with
  | [] => w
  | c :: cs' => runs cs' (run c w)
  end.

(** The order stored under [k] carries [k] and passed the checks of
    [create_order] and [update_order_status]. *)
Definition order_fields_ok (k : string) (o : Order) : Prop :=
  order_id o = k /\ k <> "" /\ item_name o <> "" /\ customer_id o <> "" /\
  positive_int (quantity o) = true /\ status o <> "".

(** The keys of the storage are distinct, no object is stored under two
    keys, and every stored object exists and has the shape above. *)
Definition storage_ok (w : World) : Prop :=
  NoDup (map fst (orders w)) /\
  NoDup (dict_values (orders w)) /\
  forall k r, In (k, r) (orders w) ->
              r < next_ref w /\ order_fields_ok k (heap w r).

(** A call of [create_order] that returned, and a call of
    [update_order_status] that found its order. *)
Definition step_created (w w' : World) (a b q c : PyVal) : Prop :=
  nonempty_str a = true /\ nonempty_str b = true /\
  positive_int q = true /\ nonempty_str c = true /\
  dict_get (orders w) (str_value a) = None /\
  OrderTracker.create_order a b q c w =
    Ok (Order.as_dict
          (mkOrder (str_value a) (str_value b) q (str_value c) "pending"
                   (Some (clock w (ticks w)))
                   (Some (clock w (S (ticks w)))))) w' /\
  (forall r, heap w' r =
             if r =? next_ref w
             then mkOrder (str_value a) (str_value b) q (str_value c) "pending"
                          (Some (clock w (ticks w)))
                          (Some (clock w (S (ticks w))))
             else heap w r) /\
  next_ref w' = S (next_ref w) /\
  orders w' = dict_set (orders w) (str_value a) (next_ref w).

Definition step_updated (w w' : World) (a s : PyVal) (r : ref) : Prop :=
  nonempty_str a = true /\ nonempty_str s = true /\
  dict_get (orders w) (str_value a) = Some r /\
  OrderTracker.update_order_status a s w =
    Ok (Some (Order.as_dict
                (set_updated_at (Some (clock w (ticks w)))
                                (set_status (str_value s) (heap w r))))) w' /\
  (forall r', heap w' r' =
              if r' =? r
              then set_updated_at (Some (clock w (ticks w)))
                                  (set_status (str_value s) (heap w r))
              else heap w r') /\
  next_ref w' = next_ref w /\
  orders w' = dict_set (orders w) (order_id (heap w r)) r.

(** Whether a call names the order [oid] as the one to create or update. *)
Definition names (c : Call) (oid : string) : bool :=
  match c with
  | CreateOrder (PyStr k) _ _ _ | UpdateOrderStatus (PyStr k) _ =>
      (k =? oid)%string
  | _ => false
  end.

(** A request body with the members the creation and the update read. *)
Definition sample_body : dict PyVal :=
  [ ("order_id", PyStr "ORD002"); ("item_name", PyStr "Mouse");
    ("quantity", PyInt 1); ("customer_id", PyStr "CUST002");
    ("status", PyStr "shipped") ].

(** A dictionary without timestamps and status. *)
Definition bare_data : OrderData :=
  mkOrderData "ORD009" "Pen" (PyInt 3) "CUST009" None None None.

(** * Properties *)

(** ** The ISO text of a timestamp, on examples *)

Example isoformat_whole_second :
  datetime.isoformat (datetime.mk 2025 7 31 12 0 0 0) = "2025-07-31T12:00:00".
Proof. reflexivity. Qed.

Example isoformat_microseconds :
  datetime.isoformat (datetime.mk 2025 7 31 9 5 7 1234) =
  "2025-07-31T09:05:07.001234".
Proof. reflexivity. Qed.

Example fromisoformat_microseconds :
  datetime.fromisoformat "2025-07-31T09:05:07.001234" =
  Some (datetime.mk 2025 7 31 9 5 7 1234).
Proof. vm_compute. reflexivity. Qed.

(** ** Datetime order *)

Lemma compare_fields_refl (a : list N) : datetime.compare_fields a a = Eq.
Proof.
  induction a as [|x a IH]; simpl; [reflexivity|].
  now rewrite N.compare_refl.
Qed.

Lemma compare_fields_le_trans (a b c : list N) :
  datetime.compare_fields a b <> Gt ->
  datetime.compare_fields b c <> Gt ->
  datetime.compare_fields a c <> Gt.
Proof.
  revert b c.
  induction a as [|x a IH]; intros [|y b] [|z c]; simpl; try congruence.
  destruct (N.compare_spec x y) as [Hxy|Hxy|Hxy]; simpl; try congruence;
    destruct (N.compare_spec y z) as [Hyz|Hyz|Hyz]; simpl; try congruence;
    intros H1 H2; subst.
  - rewrite N.compare_refl. simpl. eauto.
  - apply N.compare_lt_iff in Hyz. rewrite Hyz. simpl. congruence.
  - apply N.compare_lt_iff in Hxy. rewrite Hxy. simpl. congruence.
  - assert (Hxz : (x < z)%N) by lia.
    apply N.compare_lt_iff in Hxz. rewrite Hxz. simpl. congruence.
Qed.

Lemma datetime_le_refl (a : datetime.t) : datetime.le a a.
Proof.
  unfold datetime.le, datetime.leb, datetime.compare.
  now rewrite compare_fields_refl.
Qed.

Lemma datetime_le_iff (a b : datetime.t) :
  datetime.le a b <-> datetime.compare a b <> Gt.
Proof.
  unfold datetime.le, datetime.leb.
  destruct (datetime.compare a b); split; congruence.
Qed.

Lemma datetime_le_trans (a b c : datetime.t) :
  datetime.le a b -> datetime.le b c -> datetime.le a c.
Proof.
  rewrite !datetime_le_iff. unfold datetime.compare.
  apply compare_fields_le_trans.
Qed.

Lemma clock_monotone_le (c : nat -> datetime.t) (m n : nat) :
  clock_monotone c -> m <= n -> datetime.le (c m) (c n).
Proof.
  intros Hmono Hle.
  induction Hle as [|n Hle IH].
  - apply datetime_le_refl.
  - eapply datetime_le_trans; [exact IH | apply Hmono].
Qed.

(** ** ISO text round trip *)

Lemma digit_val_digit_char (d : N) :
  (d < 10)%N -> datetime.digit_val (datetime.digit_char d) = Some d.
Proof.
  intros Hd. unfold datetime.digit_val, datetime.digit_char.
  rewrite N_ascii_embedding by lia.
  replace ((48 <=? 48 + d)%N) with true by (symmetry; apply N.leb_le; lia).
  replace ((48 + d <=? 57)%N) with true by (symmetry; apply N.leb_le; lia).
  cbn [andb]. f_equal. lia.
Qed.

Lemma read_digits_zpad (w : nat) (acc n : N) (rest : string) :
  datetime.read_digits w acc (datetime.zpad w n ++ rest) =
  Some ((acc * 10 ^ N.of_nat w + n mod 10 ^ N.of_nat w)%N, rest).
Proof.
  revert acc.
  induction w as [|w IH]; intros acc.
  - simpl. rewrite N.mod_1_r. do 2 f_equal. lia.
  - cbn [datetime.zpad datetime.read_digits append].
    rewrite digit_val_digit_char by (apply N.mod_lt; lia).
    rewrite IH. do 2 f_equal.
    rewrite Nat2N.inj_succ, N.pow_succ_r'.
    rewrite (N.mul_comm 10 (10 ^ N.of_nat w)).
    rewrite N.Div0.mod_mul_r. lia.
Qed.

Lemma read_digits_zpad_small (w : nat) (n : N) (rest : string) :
  (n < 10 ^ N.of_nat w)%N ->
  datetime.read_digits w 0 (datetime.zpad w n ++ rest) = Some (n, rest).
Proof.
  intros Hn. rewrite read_digits_zpad, N.mod_small by exact Hn.
  reflexivity.
Qed.

Lemma append_empty_r (s : string) : s ++ "" = s.
Proof. induction s as [|c s IH]; simpl; [reflexivity | now rewrite IH]. Qed.

Lemma valid_bounds (d : datetime.t) :
  datetime.valid d = true ->
  (datetime.year d < 10 ^ 4 /\ datetime.month d < 10 ^ 2 /\
   datetime.day d < 10 ^ 2 /\ datetime.hour d < 10 ^ 2 /\
   datetime.minute d < 10 ^ 2 /\ datetime.second d < 10 ^ 2 /\
   datetime.microsecond d < 10 ^ 6)%N.
Proof.
  unfold datetime.valid. rewrite !andb_true_iff.
  rewrite !N.leb_le, !N.ltb_lt.
  intros H. decompose [and] H. clear H.
  assert (Hdim : (datetime.days_in_month (datetime.year d) (datetime.month d) <= 31)%N).
  { unfold datetime.days_in_month.
    destruct (datetime.month d) as [|p]; [lia|].
    do 4 (try destruct p as [p|p|]; try lia);
    destruct (datetime.is_leap _); lia. }
  change (10 ^ 4)%N with 10000%N. change (10 ^ 2)%N with 100%N.
  change (10 ^ 6)%N with 1000000%N. lia.
Qed.

Lemma fromisoformat_isoformat (d : datetime.t) :
  datetime.valid d = true ->
  datetime.fromisoformat (datetime.isoformat d) = Some d.
Proof.
  intros Hvalid.
  destruct (valid_bounds d Hvalid) as (Hy & Hm & Hd & Hh & Hmi & Hs & Hus).
  unfold datetime.fromisoformat, datetime.isoformat.
  rewrite (read_digits_zpad_small 4) by exact Hy. cbn [datetime.obind append datetime.expect Ascii.eqb Bool.eqb].
  rewrite (read_digits_zpad_small 2) by exact Hm. cbn [datetime.obind append datetime.expect Ascii.eqb Bool.eqb].
  rewrite (read_digits_zpad_small 2) by exact Hd. cbn [datetime.obind append datetime.skip_char].
  rewrite (read_digits_zpad_small 2) by exact Hh. cbn [datetime.obind append datetime.expect Ascii.eqb Bool.eqb].
  rewrite (read_digits_zpad_small 2) by exact Hmi. cbn [datetime.obind append datetime.expect Ascii.eqb Bool.eqb].
  rewrite (read_digits_zpad_small 2) by exact Hs. cbn [datetime.obind].
  match goal with
  | |- context [datetime.read_fraction ?x] =>
      assert (Hfrac : datetime.read_fraction x = Some (datetime.microsecond d))
  end.
  { destruct (N.eqb_spec (datetime.microsecond d) 0) as [H0|H0].
    - simpl. now rewrite H0.
    - cbn [append datetime.read_fraction Ascii.eqb Bool.eqb].
      rewrite <- (append_empty_r (datetime.zpad 6 _)).
      now rewrite (read_digits_zpad_small 6) by exact Hus. }
  rewrite Hfrac. cbn [datetime.obind].
  destruct d as [y m dd h mi s us]. cbn [datetime.year datetime.month datetime.day datetime.hour datetime.minute datetime.second datetime.microsecond] in *.
  now rewrite Hvalid.
Qed.

(** ** Dictionaries *)

Lemma dict_get_set_same {V : Type} (d : dict V) (k : string) (v : V) :
  dict_get (dict_set d k v) k = Some v.
Proof.
  induction d as [|[k' v'] d IH]; simpl.
  - now rewrite String.eqb_refl.
  - destruct (String.eqb_spec k' k) as [->|Hne]; simpl.
    + now rewrite String.eqb_refl.
    + apply String.eqb_neq in Hne. now rewrite Hne.
Qed.

Lemma dict_get_set_other {V : Type} (d : dict V) (k k0 : string) (v : V) :
  k <> k0 -> dict_get (dict_set d k v) k0 = dict_get d k0.
Proof.
  intros Hne.
  induction d as [|[k' v'] d IH]; simpl.
  - apply String.eqb_neq in Hne. now rewrite Hne.
  - destruct (String.eqb_spec k' k) as [->|Hk]; simpl.
    + apply String.eqb_neq in Hne. now rewrite Hne.
    + now rewrite IH.
Qed.

Lemma dict_get_set_stays {V : Type} (d : dict V) (k k0 : string) (v : V) :
  dict_get d k0 = Some v -> dict_get (dict_set d k v) k0 = Some v.
Proof.
  intros Hget.
  destruct (String.eqb_spec k k0) as [->|Hne].
  - apply dict_get_set_same.
  - now rewrite dict_get_set_other.
Qed.

Lemma dict_set_In {V : Type} (d : dict V) (k k0 : string) (v v0 : V) :
  In (k0, v0) (dict_set d k v) -> In (k0, v0) d \/ v0 = v.
Proof.
  induction d as [|[k' v'] d IH]; simpl.
  - intros [H|[]]. right. congruence.
  - destruct (k' =? k)%string; simpl.
    + intros [H|H]; [right; congruence | left; now right].
    + intros [H|H]; [left; now left |].
      destruct (IH H) as [H'|H']; [left; now right | now right].
Qed.

(** ** Reading through references *)

Lemma mapM_to_dict (l : list ref) (w : World) :
  mapM Order.to_dict l w = Ok (map (fun r => Order.as_dict (heap w r)) l) w.
Proof.
  induction l as [|r l IH]; simpl; [reflexivity|].
  unfold bind at 1. simpl. unfold bind at 1. now rewrite IH.
Qed.

Lemma filterM_deref (p : Order -> bool) (l : list ref) (w : World) :
  filterM (fun r => o <- deref r ;; ret (p o)) l w =
  Ok (filter (fun r => p (heap w r)) l) w.
Proof.
  induction l as [|r l IH]; simpl; [reflexivity|].
  unfold bind at 1. simpl. unfold bind at 1. rewrite IH. simpl.
  now destruct (p (heap w r)).
Qed.

(** ** The checks of the code and the contract *)

Lemma missing_str_spec (v : PyVal) :
  OrderTracker.missing_str v = negb (nonempty_str v).
Proof.
  unfold OrderTracker.missing_str.
  destruct v as [| b | z | q | s | l | d]; simpl;
    try reflexivity; try apply orb_true_r.
  apply orb_false_r.
Qed.

Lemma quantity_check_spec (v : PyVal) :
  negb (isinstance_int v) || (int_value v <=? 0)%Z = negb (positive_int v).
Proof.
  destruct v as [| b | z | q | s | l | d]; simpl; try reflexivity.
  - now destruct b.
  - rewrite Z.leb_antisym. reflexivity.
Qed.

Lemma nonempty_str_PyStr (s : string) :
  s <> "" -> nonempty_str (PyStr s) = true.
Proof.
  intros Hs. simpl. apply negb_true_iff. now apply String.eqb_neq.
Qed.

(** ** What each method of the tracker does *)

Lemma create_order_valid (w : World) (a b q c : PyVal) :
  nonempty_str a = true -> nonempty_str b = true ->
  positive_int q = true -> nonempty_str c = true ->
  dict_get (orders w) (str_value a) = None ->
  let o := mkOrder (str_value a) (str_value b) q (str_value c) "pending"
                   (Some (clock w (ticks w)))
                   (Some (clock w (S (ticks w)))) in
  exists w',
    OrderTracker.create_order a b q c w = Ok (Order.as_dict o) w' /\
    clock w' = clock w /\
    ticks w' = S (S (ticks w)) /\
    (forall r, heap w' r = if r =? next_ref w then o else heap w r) /\
    next_ref w' = S (next_ref w) /\
    orders w' = dict_set (orders w) (str_value a) (next_ref w).
Proof.
  intros Ha Hb Hq Hc Hfresh o.
  unfold OrderTracker.create_order.
  rewrite !missing_str_spec, quantity_check_spec, Ha, Hb, Hq, Hc.
  cbn [negb].
  unfold InMemoryStorage.get_order, Order.init, Order.post_init,
    InMemoryStorage.save_order, Order.to_dict, alloc, deref, assign, now, ret,
    get_orders, put_orders, bind.
  rewrite Hfresh. cbn. repeat (rewrite Nat.eqb_refl; cbn).
  eexists. split; [reflexivity|]. cbn.
  repeat split.
  intros r. destruct (r =? next_ref w); reflexivity.
Qed.

Lemma create_order_conflict (w : World) (a b q c : PyVal) (r : ref) :
  nonempty_str a = true -> nonempty_str b = true ->
  positive_int q = true -> nonempty_str c = true ->
  dict_get (orders w) (str_value a) = Some r ->
  OrderTracker.create_order a b q c w =
  Raise (ValueError (conflict_reason (str_value a))) w.
Proof.
  intros Ha Hb Hq Hc Hdup.
  unfold OrderTracker.create_order.
  rewrite !missing_str_spec, quantity_check_spec, Ha, Hb, Hq, Hc.
  cbn [negb].
  unfold InMemoryStorage.get_order, get_orders, ret, bind.
  now rewrite Hdup.
Qed.

(** A call of [create_order] that does not return leaves the state as it
    was. *)
Lemma create_order_raise_keeps_state (w w' : World) (a b q c : PyVal) (e : Exn) :
  OrderTracker.create_order a b q c w = Raise e w' -> w' = w.
Proof.
  destruct (nonempty_str a) eqn:Ha, (nonempty_str b) eqn:Hb,
    (positive_int q) eqn:Hq, (nonempty_str c) eqn:Hc;
    try (unfold OrderTracker.create_order;
         rewrite !missing_str_spec, ?quantity_check_spec, ?Ha, ?Hb, ?Hq, ?Hc;
         cbn [negb]; unfold raise; congruence).
  destruct (dict_get (orders w) (str_value a)) as [r|] eqn:Hget.
  - rewrite (create_order_conflict w a b q c r) by assumption. congruence.
  - destruct (create_order_valid w a b q c Ha Hb Hq Hc Hget) as (w1 & Hrun & _).
    rewrite Hrun. discriminate.
Qed.

(** A call of [create_order] returns only for arguments that pass every check
    and an identifier that is not stored yet. *)
Lemma create_order_ok_inv (w w' : World) (a b q c : PyVal) (d : OrderData) :
  OrderTracker.create_order a b q c w = Ok d w' ->
  nonempty_str a = true /\ nonempty_str b = true /\
  positive_int q = true /\ nonempty_str c = true /\
  dict_get (orders w) (str_value a) = None.
Proof.
  destruct (nonempty_str a) eqn:Ha, (nonempty_str b) eqn:Hb,
    (positive_int q) eqn:Hq, (nonempty_str c) eqn:Hc;
    try (unfold OrderTracker.create_order;
         rewrite !missing_str_spec, ?quantity_check_spec, ?Ha, ?Hb, ?Hq, ?Hc;
         cbn [negb]; unfold raise; discriminate).
  destruct (dict_get (orders w) (str_value a)) as [r|] eqn:Hget.
  - rewrite (create_order_conflict w a b q c r) by assumption. discriminate.
  - intros _. repeat split.
Qed.

Lemma get_order_valid (w : World) (a : PyVal) :
  nonempty_str a = true ->
  OrderTracker.get_order a w =
  Ok (option_map (fun r => Order.as_dict (heap w r))
                 (dict_get (orders w) (str_value a))) w.
Proof.
  intros Ha. unfold OrderTracker.get_order.
  rewrite missing_str_spec, Ha. cbn [negb].
  unfold InMemoryStorage.get_order, Order.to_dict, get_orders, deref, ret, bind.
  now destruct (dict_get (orders w) (str_value a)).
Qed.

Lemma update_order_status_unknown (w : World) (a s : PyVal) :
  nonempty_str a = true -> nonempty_str s = true ->
  dict_get (orders w) (str_value a) = None ->
  OrderTracker.update_order_status a s w = Ok None w.
Proof.
  intros Ha Hs Hget. unfold OrderTracker.update_order_status.
  rewrite !missing_str_spec, Ha, Hs. cbn [negb].
  unfold InMemoryStorage.get_order, get_orders, ret, bind.
  now rewrite Hget.
Qed.

Lemma update_order_status_found (w : World) (a s : PyVal) (r : ref) :
  nonempty_str a = true -> nonempty_str s = true ->
  dict_get (orders w) (str_value a) = Some r ->
  let o := set_updated_at (Some (clock w (ticks w)))
                          (set_status (str_value s) (heap w r)) in
  exists w',
    OrderTracker.update_order_status a s w = Ok (Some (Order.as_dict o)) w' /\
    clock w' = clock w /\
    ticks w' = S (ticks w) /\
    (forall r', heap w' r' = if r' =? r then o else heap w r') /\
    next_ref w' = next_ref w /\
    orders w' = dict_set (orders w) (order_id (heap w r)) r.
Proof.
  intros Ha Hs Hget o. unfold OrderTracker.update_order_status.
  rewrite !missing_str_spec, Ha, Hs. cbn [negb].
  unfold InMemoryStorage.get_order, Order.update_status,
    InMemoryStorage.save_order, Order.to_dict, deref, assign, now, ret,
    get_orders, put_orders, bind.
  rewrite Hget.
  cbn. repeat (rewrite Nat.eqb_refl; cbn).
  eexists. split; [reflexivity|]. cbn.
  repeat split.
  intros r'. destruct (r' =? r); reflexivity.
Qed.

Lemma get_all_orders_run (w : World) :
  OrderTracker.get_all_orders w =
  Ok (map (fun r => Order.as_dict (heap w r)) (dict_values (orders w))) w.
Proof.
  unfold OrderTracker.get_all_orders, InMemoryStorage.get_all_orders.
  unfold bind at 1. unfold bind at 1. cbn [get_orders ret].
  apply mapM_to_dict.
Qed.

Lemma get_orders_by_status_valid (w : World) (s : PyVal) :
  nonempty_str s = true ->
  OrderTracker.get_orders_by_status s w =
  Ok (map (fun r => Order.as_dict (heap w r))
          (filter (fun r => (status (heap w r) =? str_value s)%string)
                  (dict_values (orders w)))) w.
Proof.
  intros Hs. unfold OrderTracker.get_orders_by_status.
  rewrite missing_str_spec, Hs. cbn [negb].
  unfold InMemoryStorage.get_orders_by_status.
  unfold bind at 1. unfold bind at 1. cbn [get_orders].
  rewrite (filterM_deref (fun o => (status o =? str_value s)%string)).
  apply mapM_to_dict.
Qed.

Lemma get_orders_by_customer_valid (w : World) (c : PyVal) :
  nonempty_str c = true ->
  OrderTracker.get_orders_by_customer c w =
  Ok (map (fun r => Order.as_dict (heap w r))
          (filter (fun r => (customer_id (heap w r) =? str_value c)%string)
                  (dict_values (orders w)))) w.
Proof.
  intros Hc. unfold OrderTracker.get_orders_by_customer.
  rewrite missing_str_spec, Hc. cbn [negb].
  unfold InMemoryStorage.get_orders_by_customer.
  unfold bind at 1. unfold bind at 1. cbn [get_orders].
  rewrite (filterM_deref (fun o => (customer_id o =? str_value c)%string)).
  apply mapM_to_dict.
Qed.

(** ** Steps of a run *)

Ltac checks_fail :=
  unfold OrderTracker.create_order, OrderTracker.get_order,
    OrderTracker.update_order_status, OrderTracker.get_orders_by_status,
    OrderTracker.get_orders_by_customer;
  rewrite ?missing_str_spec, ?quantity_check_spec;
  repeat match goal with
         | H : nonempty_str _ = _ |- _ => rewrite H
         | H : positive_int _ = _ |- _ => rewrite H
         end;
  cbn [negb raise final]; try reflexivity.

Lemma run_cases (c : Call) (w : World) :
  run c w = w \/
  (exists k o, created w (run c w) k o) \/
  (exists k r s, updated w (run c w) k r s).
Proof.
  unfold run.
  destruct c as [a b q d | a | a s | | s | a]; cbn [exec]; unfold bind.
  - destruct (OrderTracker.create_order a b q d w) as [data w'|e w'] eqn:Hrun.
    + right. left.
      destruct (create_order_ok_inv _ _ _ _ _ _ _ Hrun)
        as (Ha & Hb & Hq & Hd & Hfresh).
      destruct (create_order_valid w a b q d Ha Hb Hq Hd Hfresh)
        as (w1 & Hrun1 & Hclock & Hticks & Hheap & _ & Horders).
      rewrite Hrun in Hrun1. injection Hrun1 as _ <-.
      match type of Hheap with
      | context [if _ then ?o else _] => exists (str_value a), o
      end.
      cbn [ret final].
      repeat split; try assumption; reflexivity.
    + left. cbn [final]. eapply create_order_raise_keeps_state; eauto.
  - left. destruct (nonempty_str a) eqn:Ha.
    + now rewrite get_order_valid.
    + checks_fail.
  - destruct (nonempty_str a) eqn:Ha; [|left; checks_fail].
    destruct (nonempty_str s) eqn:Hs; [|left; checks_fail].
    destruct (dict_get (orders w) (str_value a)) as [r|] eqn:Hget.
    + right. right.
      destruct (update_order_status_found w a s r Ha Hs Hget)
        as (w1 & Hrun1 & Hclock & Hticks & Hheap & _ & Horders).
      rewrite Hrun1. cbn [ret final].
      exists (str_value a), r, (str_value s).
      repeat split; assumption.
    + left. now rewrite update_order_status_unknown.
  - left. now rewrite get_all_orders_run.
  - left. destruct (nonempty_str s) eqn:Hs.
    + now rewrite get_orders_by_status_valid.
    + checks_fail.
  - left. destruct (nonempty_str a) eqn:Ha.
    + now rewrite get_orders_by_customer_valid.
    + checks_fail.
Qed.

Lemma run_clock (c : Call) (w : World) : clock (run c w) = clock w.
Proof.
  destruct (run_cases c w) as [-> | [(k & o & H) | (k & r & s & H)]];
    [reflexivity | apply H | apply H].
Qed.

Lemma dict_get_In {V : Type} (d : dict V) (k : string) (v : V) :
  dict_get d k = Some v -> In (k, v) d.
Proof.
  induction d as [|[k' v'] d IH]; simpl; [discriminate|].
  destruct (String.eqb_spec k' k) as [->|Hne].
  - intros [= ->]. now left.
  - intros H. right. now apply IH.
Qed.

(** ** The timestamp invariant *)

Lemma timestamps_ok_later (w w' : World) (o : Order) :
  clock w' = clock w -> ticks w <= ticks w' ->
  timestamps_ok w o -> timestamps_ok w' o.
Proof.
  intros Hclock Hticks (c & u & Hc & Hu & Hle & Hfuture).
  exists c, u. repeat split; try assumption.
  intros n Hn. rewrite Hclock. apply Hfuture. lia.
Qed.

Lemma stored_timestamps_ok_step (c : Call) (w : World) :
  clock_monotone (clock w) ->
  stored_timestamps_ok w -> stored_timestamps_ok (run c w).
Proof.
  intros Hmono Hinv.
  destruct (run_cases c w) as [-> | [(k & o & H) | (k & r & s & H)]];
    [assumption | |].
  - destruct H as (Hc & Hu & Hclock & Hticks & Hheap & Horders).
    assert (Hnew : timestamps_ok (run c w) o).
    { exists (clock w (ticks w)), (clock w (S (ticks w))).
      repeat split; try assumption.
      - apply Hmono.
      - intros n Hn. rewrite Hclock.
        apply (clock_monotone_le (clock w)); [assumption | lia]. }
    intros k' r' Hin. rewrite Hheap.
    destruct (r' =? next_ref w) eqn:Hr; [exact Hnew|].
    rewrite Horders in Hin.
    destruct (dict_set_In _ _ _ _ _ Hin) as [Hold | ->].
    + eapply timestamps_ok_later; [exact Hclock | lia | eapply Hinv; eauto].
    + now rewrite Nat.eqb_refl in Hr.
  - destruct H as (Hget & Hclock & Hticks & Hheap & Horders).
    assert (Hnew : timestamps_ok (run c w)
                     (set_updated_at (Some (clock w (ticks w)))
                                     (set_status s (heap w r)))).
    { destruct (Hinv k r (dict_get_In _ _ _ Hget))
        as (c0 & u0 & Hc0 & Hu0 & Hle0 & Hfuture0).
      exists c0, (clock w (ticks w)). cbn.
      repeat split; try assumption.
      - eapply datetime_le_trans; [exact Hle0 | apply Hfuture0; lia].
      - intros n Hn. rewrite Hclock.
        apply (clock_monotone_le (clock w)); [assumption | lia]. }
    intros k' r' Hin. rewrite Hheap.
    destruct (r' =? r) eqn:Hr; [exact Hnew|].
    rewrite Horders in Hin.
    destruct (dict_set_In _ _ _ _ _ Hin) as [Hold | ->].
    + eapply timestamps_ok_later; [exact Hclock | lia | eapply Hinv; eauto].
    + now rewrite Nat.eqb_refl in Hr.
Qed.

Lemma reachable_timestamps_ok (w : World) :
  reachable w -> clock_monotone (clock w) -> stored_timestamps_ok w.
Proof.
  induction 1 as [w Hempty | w c Hreach IH]; intros Hmono.
  - intros k r Hin. rewrite Hempty in Hin. destruct Hin.
  - rewrite run_clock in Hmono.
    apply stored_timestamps_ok_step; auto.
Qed.

(** ** Concrete clocks *)

Lemma us_clock_monotone : clock_monotone us_clock.
Proof.
  intros k. apply datetime_le_iff. cbn.
  change (N.pos (Pos.of_succ_nat k)) with (N.of_nat (S k)).
  destruct (N.compare_spec (N.of_nat k) (N.of_nat (S k))); cbn;
    try discriminate.
  lia.
Qed.

Lemma one_order_world_reachable : reachable one_order_world.
Proof. apply reach_step. now apply reach_init. Qed.

Lemma one_order_world_clock_monotone : clock_monotone (clock one_order_world).
Proof.
  unfold one_order_world. rewrite run_clock. exact us_clock_monotone.
Qed.

(** ** Creation *)

(** C1.  For non-empty strings [oid], [item], [cust] and an integer [q > 0],
    with [oid] not stored yet, [create_order] returns a dictionary, and a
    [get_order] on [oid] that follows returns the same dictionary, whose
    [order_id], [item_name], [quantity] and [customer_id] are the arguments
    and whose [status] is ["pending"]. *)
Theorem create_order_then_get_order
    (w : World) (oid item cust : string) (q : Z) :
  oid <> "" -> item <> "" -> cust <> "" -> (0 < q)%Z ->
  dict_get (orders w) oid = None ->
  exists d w',
    OrderTracker.create_order (PyStr oid) (PyStr item) (PyInt q) (PyStr cust) w
      = Ok d w' /\
    OrderTracker.get_order (PyStr oid) w' = Ok (Some d) w' /\
    data_order_id d = oid /\
    data_item_name d = item /\
    data_quantity d = PyInt q /\
    data_customer_id d = cust /\
    data_status d = Some "pending".
Proof.
  intros Hoid Hitem Hcust Hq Hfresh.
  destruct (create_order_valid w (PyStr oid) (PyStr item) (PyInt q) (PyStr cust))
    as (w' & Hrun & _ & _ & Hheap & _ & Horders);
    try (now apply nonempty_str_PyStr); try assumption.
  { cbn. now apply Z.ltb_lt. }
  eexists _, w'. split; [exact Hrun|].
  split; [|repeat split].
  rewrite get_order_valid by now apply nonempty_str_PyStr.
  cbn [str_value] in *. rewrite Horders, dict_get_set_same. cbn [option_map].
  now rewrite Hheap, Nat.eqb_refl.
Qed.

Lemma create_order_then_get_order_witness :
  exists d w',
    OrderTracker.create_order (PyStr "ORDER001") (PyStr "Test Item") (PyInt 5)
      (PyStr "CUST001") (empty_world us_clock) = Ok d w' /\
    OrderTracker.get_order (PyStr "ORDER001") w' = Ok (Some d) w' /\
    data_order_id d = "ORDER001" /\
    data_item_name d = "Test Item" /\
    data_quantity d = PyInt 5 /\
    data_customer_id d = "CUST001" /\
    data_status d = Some "pending".
Proof.
  apply (create_order_then_get_order (empty_world us_clock)
           "ORDER001" "Test Item" "CUST001" 5);
    try discriminate; reflexivity.
Defined.

(** C2.  When [oid] is the key of a stored order, [create_order] with [oid]
    and any other arguments that pass validation raises the error whose
    message says that the identifier already exists, a message no validation
    failure carries, and the state, hence the stored record, is the one the
    call started in. *)
Theorem create_order_duplicate_conflict
    (w : World) (oid : string) (item quantity cust : PyVal) (r : ref) :
  dict_get (orders w) oid = Some r ->
  oid <> "" ->
  nonempty_str item = true -> positive_int quantity = true ->
  nonempty_str cust = true ->
  OrderTracker.create_order (PyStr oid) item quantity cust w =
    Raise (ValueError (conflict_reason oid)) w /\
  ~ In (conflict_reason oid) validation_reasons.
Proof.
  intros Hstored Hoid Hitem Hq Hcust. split.
  - apply (create_order_conflict w (PyStr oid) item quantity cust r);
      try assumption.
    now apply nonempty_str_PyStr.
  - unfold validation_reasons, conflict_reason, quantity_reason. cbn.
    intros H. repeat destruct H as [H|H]; try discriminate H. exact H.
Qed.

Lemma create_order_duplicate_conflict_witness :
  dict_get (orders one_order_world) "ORD001" = Some 0 /\
  OrderTracker.create_order (PyStr "ORD001") (PyStr "Mouse") (PyInt 7)
    (PyStr "CUST002") one_order_world =
    Raise (ValueError (conflict_reason "ORD001")) one_order_world /\
  ~ In (conflict_reason "ORD001") validation_reasons.
Proof.
  assert (Hstored : dict_get (orders one_order_world) "ORD001" = Some 0)
    by (vm_compute; reflexivity).
  split; [exact Hstored|].
  apply (create_order_duplicate_conflict one_order_world "ORD001"
           (PyStr "Mouse") (PyInt 7) (PyStr "CUST002") 0 Hstored);
    try discriminate; reflexivity.
Defined.

(** ** The quantity check *)

Lemma create_order_quantity_rejected (w : World) (a b q c : PyVal) :
  nonempty_str a = true -> nonempty_str b = true ->
  positive_int q = false ->
  OrderTracker.create_order a b q c w = Raise (ValueError quantity_reason) w.
Proof. intros Ha Hb Hq. checks_fail. Qed.

Lemma create_order_quantity_passed (w w' : World) (a b q c : PyVal) :
  positive_int q = true ->
  OrderTracker.create_order a b q c w <> Raise (ValueError quantity_reason) w'.
Proof.
  intros Hq.
  destruct (nonempty_str a) eqn:Ha; [|checks_fail; discriminate].
  destruct (nonempty_str b) eqn:Hb; [|checks_fail; discriminate].
  destruct (nonempty_str c) eqn:Hc; [|checks_fail; discriminate].
  destruct (dict_get (orders w) (str_value a)) as [r|] eqn:Hget.
  - rewrite (create_order_conflict w a b q c r) by assumption.
    unfold conflict_reason, quantity_reason. cbn. discriminate.
  - destruct (create_order_valid w a b q c Ha Hb Hq Hc Hget) as (w1 & Hrun & _).
    rewrite Hrun. discriminate.
Qed.

Lemma positive_int_false (q : PyVal) :
  positive_int q = false <-> isinstance_int q = false \/ (int_value q <= 0)%Z.
Proof.
  destruct q as [| b | z | f | s | l | d]; cbn;
    try (split; [now left | reflexivity]).
  - destruct b; split; try reflexivity; try (intros _; right; lia);
      try discriminate.
    intros [H|H]; [discriminate | lia].
  - rewrite Z.ltb_ge. split; [now right|]. intros [H|H]; [discriminate | exact H].
Qed.

(** C3, counterexample.  With valid other arguments, [create_order] with the
    quantity [True] returns, and the quantity in the dictionary it returns is
    [True]. *)
Lemma create_order_accepts_True :
  let r := OrderTracker.create_order (PyStr "ORD001") (PyStr "Laptop")
             (PyBool true) (PyStr "CUST001") (empty_world frozen_clock) in
  is_ok r = true /\
  option_map data_quantity (returned r) = Some (PyBool true).
Proof. split; vm_compute; reflexivity. Qed.

(** C3, amended.  After a valid [order_id] and [item_name], [create_order]
    fails with the quantity reason, in the state it started in, exactly for
    the quantities that are not an instance of [int] or whose integer value
    is at most 0: it rejects 0, -1, every float, every string, [None] and
    [False]; it does not reject [True], which Python counts as the integer 1;
    and with a valid [customer_id] and a fresh identifier the quantity 1
    succeeds. *)
Theorem create_order_quantity_boundary
    (w : World) (order_id item_name customer_id : PyVal) :
  nonempty_str order_id = true -> nonempty_str item_name = true ->
  let rejected q :=
    OrderTracker.create_order order_id item_name q customer_id w =
    Raise (ValueError quantity_reason) w in
  (forall q, rejected q <-> isinstance_int q = false \/ (int_value q <= 0)%Z) /\
  rejected (PyInt 0) /\ rejected (PyInt (-1)) /\
  (forall f, rejected (PyFloat f)) /\ (forall s, rejected (PyStr s)) /\
  rejected PyNone /\ rejected (PyBool false) /\ ~ rejected (PyBool true) /\
  (nonempty_str customer_id = true ->
   dict_get (orders w) (str_value order_id) = None ->
   exists d w',
     OrderTracker.create_order order_id item_name (PyInt 1) customer_id w =
     Ok d w' /\ data_quantity d = PyInt 1).
Proof.
  intros Ha Hb rejected.
  assert (Hiff : forall q, rejected q <-> positive_int q = false).
  { intros q. unfold rejected. split.
    - intros Hrej. destruct (positive_int q) eqn:Hq; [|reflexivity].
      now apply create_order_quantity_passed in Hrej.
    - now apply create_order_quantity_rejected. }
  split; [intros q; now rewrite Hiff, positive_int_false|].
  repeat split; try intros ?; try (apply Hiff; reflexivity).
  - destruct (Hiff (PyBool true)) as [Hrej _].
    specialize (Hrej H). discriminate Hrej.
  - intros Hfresh.
    destruct (create_order_valid w order_id item_name (PyInt 1) customer_id)
      as (w' & Hrun & _); try assumption; try reflexivity.
    eexists _, w'. split; [exact Hrun | reflexivity].
Qed.

Lemma create_order_quantity_boundary_witness :
  let w := empty_world frozen_clock in
  let rejected q :=
    OrderTracker.create_order (PyStr "ORD001") (PyStr "Laptop") q
      (PyStr "CUST001") w = Raise (ValueError quantity_reason) w in
  (forall q, rejected q <-> isinstance_int q = false \/ (int_value q <= 0)%Z) /\
  rejected (PyInt 0) /\ rejected (PyInt (-1)) /\
  (forall f, rejected (PyFloat f)) /\ (forall s, rejected (PyStr s)) /\
  rejected PyNone /\ rejected (PyBool false) /\ ~ rejected (PyBool true) /\
  (nonempty_str (PyStr "CUST001") = true ->
   dict_get (orders w) "ORD001" = None ->
   exists d w',
     OrderTracker.create_order (PyStr "ORD001") (PyStr "Laptop") (PyInt 1)
       (PyStr "CUST001") w = Ok d w' /\ data_quantity d = PyInt 1).
Proof.
  apply (create_order_quantity_boundary (empty_world frozen_clock)
           (PyStr "ORD001") (PyStr "Laptop") (PyStr "CUST001"));
    reflexivity.
Defined.

(** ** Timestamps at creation *)

(** C4, counterexample.  Under a clock that advances between two readings,
    [create_order] returns and the order it stored has different
    [created_at] and [updated_at]. *)
Lemma create_order_timestamps_differ :
  let r := OrderTracker.create_order (PyStr "ORD001") (PyStr "Laptop")
             (PyInt 2) (PyStr "CUST001") (empty_world us_clock) in
  is_ok r = true /\
  dict_get (orders (final r)) "ORD001" = Some 0 /\
  created_at (heap (final r) 0) <> updated_at (heap (final r) 0) /\
  option_map data_created_at (returned r) <>
  option_map data_updated_at (returned r).
Proof.
  repeat split; try (vm_compute; reflexivity);
    intros H; vm_compute in H; discriminate H.
Qed.

(** C4, amended.  On every call of [create_order] that returns, the order
    stored under the new identifier has [created_at] set to the reading the
    clock gave first and [updated_at] to the reading it gave next; the two
    are the same timestamp whenever these two readings are equal. *)
Theorem create_order_timestamps
    (w : World) (order_id item_name quantity customer_id : PyVal) :
  let r := OrderTracker.create_order order_id item_name quantity customer_id w in
  is_ok r = true ->
  exists order,
    dict_get (orders (final r)) (str_value order_id) = Some order /\
    created_at (heap (final r) order) = Some (clock w (ticks w)) /\
    updated_at (heap (final r) order) = Some (clock w (S (ticks w))) /\
    (clock w (ticks w) = clock w (S (ticks w)) ->
     created_at (heap (final r) order) = updated_at (heap (final r) order)).
Proof.
  intros r Hok. subst r.
  destruct (OrderTracker.create_order order_id item_name quantity customer_id w)
    as [d w'|e w'] eqn:Hrun; [clear Hok | discriminate Hok].
  destruct (create_order_ok_inv _ _ _ _ _ _ _ Hrun) as (Ha & Hb & Hq & Hc & Hfresh).
  destruct (create_order_valid w _ _ _ _ Ha Hb Hq Hc Hfresh)
    as (w1 & Hrun1 & _ & _ & Hheap & _ & Horders).
  rewrite Hrun in Hrun1. injection Hrun1 as _ <-.
  exists (next_ref w). cbn [final].
  rewrite Horders, dict_get_set_same, Hheap, Nat.eqb_refl. cbn.
  repeat split. now intros ->.
Qed.

Lemma create_order_timestamps_witness :
  let w := empty_world frozen_clock in
  let r := OrderTracker.create_order (PyStr "ORD001") (PyStr "Laptop")
             (PyInt 2) (PyStr "CUST001") w in
  is_ok r = true /\
  exists order,
    dict_get (orders (final r)) "ORD001" = Some order /\
    created_at (heap (final r) order) = Some (frozen_clock 0) /\
    updated_at (heap (final r) order) = Some (frozen_clock 1) /\
    (frozen_clock 0 = frozen_clock 1 ->
     created_at (heap (final r) order) = updated_at (heap (final r) order)).
Proof.
  intros w r.
  assert (Hok : is_ok r = true) by (vm_compute; reflexivity).
  split; [exact Hok|].
  exact (create_order_timestamps w (PyStr "ORD001") (PyStr "Laptop") (PyInt 2)
           (PyStr "CUST001") Hok).
Defined.

(** ** Validation failures *)

(** C8, counterexample.  With the quantity [True], which the documented
    rule refuses, and an empty [customer_id], the documented checks fail
    first on the quantity, but [create_order] raises the reason of
    [customer_id]; with a valid [customer_id] the documented checks still
    fail on the quantity and [create_order] returns. *)
Lemma validation_skips_boolean_quantity :
  let w := empty_world frozen_clock in
  first_violation
    (documented_create_order_checks (PyStr "ORD001") (PyStr "Laptop")
       (PyBool true) (PyStr "")) = Some quantity_reason /\
  OrderTracker.create_order (PyStr "ORD001") (PyStr "Laptop") (PyBool true)
    (PyStr "") w = Raise (ValueError "customer_id is mandatory") w /\
  "customer_id is mandatory" <> quantity_reason /\
  first_violation
    (documented_create_order_checks (PyStr "ORD001") (PyStr "Laptop")
       (PyBool true) (PyStr "CUST001")) = Some quantity_reason /\
  is_ok (OrderTracker.create_order (PyStr "ORD001") (PyStr "Laptop")
           (PyBool true) (PyStr "CUST001") w) = true.
Proof.
  intros w. split; [reflexivity|]. split; [reflexivity|].
  split; [discriminate|]. split; [reflexivity|].
  vm_compute. reflexivity.
Qed.

(** C8, amended.  When the arguments of a call fail one or more of the
    checks the code makes (a string argument must be a non-empty string, the
    quantity an instance of [int] greater than 0, which [True] is), the call
    raises the error whose message is the reason of the first failing check
    in the order [order_id], [item_name], [quantity], [customer_id], and the
    state is the one the call started in. *)
Theorem validation_reports_first_failure
    (c : Call) (w : World) (reason : string) :
  first_violation (checks_of c) = Some reason ->
  exec c w = Raise (ValueError reason) w.
Proof.
  destruct c as [a b q d | a | a s | | s | a];
    cbn [checks_of first_violation exec];
    unfold bind at 1;
    unfold OrderTracker.create_order, OrderTracker.get_order,
      OrderTracker.update_order_status, OrderTracker.get_orders_by_status,
      OrderTracker.get_orders_by_customer;
    rewrite ?missing_str_spec, ?quantity_check_spec;
    repeat match goal with
           | |- context [nonempty_str ?v] => destruct (nonempty_str v)
           | |- context [positive_int ?v] => destruct (positive_int v)
           end;
    cbn [negb raise]; intros H; try discriminate H;
    injection H as <-; reflexivity.
Qed.

Lemma validation_reports_first_failure_witness :
  first_violation
    (checks_of (CreateOrder (PyStr "ORD001") (PyList []) (PyInt 0) PyNone)) =
    Some "item_name is mandatory" /\
  exec (CreateOrder (PyStr "ORD001") (PyList []) (PyInt 0) PyNone)
       (empty_world us_clock) =
  Raise (ValueError "item_name is mandatory") (empty_world us_clock).
Proof.
  split; [reflexivity|].
  apply (validation_reports_first_failure
           (CreateOrder (PyStr "ORD001") (PyList []) (PyInt 0) PyNone)).
  reflexivity.
Defined.

(** ** Status updates *)

(** C5, counterexample.  An order is created just before the wall clock is
    set back an hour; the update that follows returns and sets [updated_at]
    to a timestamp earlier than the previous one. *)
Lemma update_order_status_lowers_updated_at :
  let w := fallback_world in
  let r := OrderTracker.update_order_status (PyStr "ORD001") (PyStr "shipped") w in
  reachable w /\
  dict_get (orders w) "ORD001" = Some 0 /\
  is_ok r = true /\
  updated_at (heap w 0) = Some (datetime.mk 2025 10 26 2 59 59 999999) /\
  updated_at (heap (final r) 0) = Some (datetime.mk 2025 10 26 2 0 0 0) /\
  datetime.leb (datetime.mk 2025 10 26 2 59 59 999999)
               (datetime.mk 2025 10 26 2 0 0 0) = false.
Proof.
  intros w r.
  split; [apply reach_step, reach_init; reflexivity|].
  repeat split; vm_compute; reflexivity.
Qed.

(** C5, amended.  In every state, [update_order_status] on a stored
    identifier with a non-empty status returns the dictionary of the stored
    order, which is still stored under that identifier, with [order_id],
    [item_name], [quantity], [customer_id] and [created_at] as before,
    [status] set to the new value and [updated_at] set to the reading the
    clock gives at the call; that reading is not earlier than the previous
    [updated_at] when the state is one the tracker reached and the readings
    of the clock never decrease. *)
Theorem update_order_status_frame
    (w : World) (oid new_status : string) (r : ref) :
  oid <> "" -> new_status <> "" ->
  dict_get (orders w) oid = Some r ->
  exists d w',
    OrderTracker.update_order_status (PyStr oid) (PyStr new_status) w =
      Ok (Some d) w' /\
    dict_get (orders w') oid = Some r /\
    d = Order.as_dict (heap w' r) /\
    order_id (heap w' r) = order_id (heap w r) /\
    item_name (heap w' r) = item_name (heap w r) /\
    quantity (heap w' r) = quantity (heap w r) /\
    customer_id (heap w' r) = customer_id (heap w r) /\
    created_at (heap w' r) = created_at (heap w r) /\
    status (heap w' r) = new_status /\
    updated_at (heap w' r) = Some (clock w (ticks w)) /\
    (reachable w -> clock_monotone (clock w) ->
     exists u,
       updated_at (heap w r) = Some u /\
       datetime.le u (clock w (ticks w))).
Proof.
  intros Hoid Hst Hget.
  destruct (update_order_status_found w (PyStr oid) (PyStr new_status) r)
    as (w' & Hrun & _ & _ & Hheap & _ & Horders);
    try (now apply nonempty_str_PyStr); try assumption.
  cbn [str_value] in *.
  eexists _, w'. split; [exact Hrun|].
  rewrite Horders, Hheap, Nat.eqb_refl.
  split; [now apply dict_get_set_stays|].
  do 8 (split; [reflexivity|]).
  intros Hreach Hmono.
  destruct (reachable_timestamps_ok w Hreach Hmono oid r (dict_get_In _ _ _ Hget))
    as (c & u & _ & Hu & _ & Hfuture).
  exists u. split; [exact Hu | apply Hfuture; lia].
Qed.

Lemma update_order_status_frame_witness :
  let w := one_order_world in
  dict_get (orders w) "ORD001" = Some 0 /\
  (exists d w',
     OrderTracker.update_order_status (PyStr "ORD001") (PyStr "shipped") w =
       Ok (Some d) w' /\
     dict_get (orders w') "ORD001" = Some 0 /\
     d = Order.as_dict (heap w' 0) /\
     order_id (heap w' 0) = order_id (heap w 0) /\
     item_name (heap w' 0) = item_name (heap w 0) /\
     quantity (heap w' 0) = quantity (heap w 0) /\
     customer_id (heap w' 0) = customer_id (heap w 0) /\
     created_at (heap w' 0) = created_at (heap w 0) /\
     status (heap w' 0) = "shipped" /\
     updated_at (heap w' 0) = Some (clock w (ticks w)) /\
     (reachable w -> clock_monotone (clock w) ->
      exists u,
        updated_at (heap w 0) = Some u /\
        datetime.le u (clock w (ticks w)))) /\
  reachable w /\ clock_monotone (clock w).
Proof.
  intros w.
  assert (Hstored : dict_get (orders w) "ORD001" = Some 0)
    by (vm_compute; reflexivity).
  split; [exact Hstored|].
  split; [|split; [exact one_order_world_reachable
                  | exact one_order_world_clock_monotone]].
  apply (update_order_status_frame w "ORD001" "shipped" 0);
    try discriminate.
  exact Hstored.
Defined.

(** C6.  [update_order_status] with non-empty arguments on an identifier
    that is not stored returns [None], raises nothing, and ends in the
    state it started in, so that [get_all_orders] lists what it listed
    before. *)
Theorem update_order_status_unknown_id
    (w : World) (oid new_status : string) :
  oid <> "" -> new_status <> "" ->
  dict_get (orders w) oid = None ->
  OrderTracker.update_order_status (PyStr oid) (PyStr new_status) w = Ok None w /\
  (x <- OrderTracker.update_order_status (PyStr oid) (PyStr new_status) ;;
   OrderTracker.get_all_orders) w = OrderTracker.get_all_orders w.
Proof.
  intros Hoid Hst Hget.
  assert (Hrun : OrderTracker.update_order_status (PyStr oid) (PyStr new_status) w
                 = Ok None w).
  { apply update_order_status_unknown; try (now apply nonempty_str_PyStr).
    exact Hget. }
  split; [exact Hrun|].
  unfold bind at 1. now rewrite Hrun.
Qed.

Lemma update_order_status_unknown_id_witness :
  let w := one_order_world in
  dict_get (orders w) "NONEXISTENT" = None /\
  OrderTracker.update_order_status (PyStr "NONEXISTENT") (PyStr "shipped") w =
    Ok None w /\
  (x <- OrderTracker.update_order_status (PyStr "NONEXISTENT") (PyStr "shipped") ;;
   OrderTracker.get_all_orders) w = OrderTracker.get_all_orders w.
Proof.
  intros w.
  assert (Habsent : dict_get (orders w) "NONEXISTENT" = None)
    by (vm_compute; reflexivity).
  split; [exact Habsent|].
  apply (update_order_status_unknown_id w "NONEXISTENT" "shipped");
    try discriminate.
  exact Habsent.
Defined.

(** ** Filtered listings *)

Lemma filter_map_as_dict (p : OrderData -> bool) (q : Order -> bool)
    (h : ref -> Order) (l : list ref) :
  (forall o, p (Order.as_dict o) = q o) ->
  map (fun r => Order.as_dict (h r)) (filter (fun r => q (h r)) l) =
  filter p (map (fun r => Order.as_dict (h r)) l).
Proof.
  intros Hpq.
  induction l as [|r l IH]; cbn; [reflexivity|].
  rewrite Hpq. destruct (q (h r)); cbn; now rewrite IH.
Qed.

Lemma filter_none {A : Type} (p : A -> bool) (l : list A) :
  (forall x, In x l -> p x = false) -> filter p l = [].
Proof.
  induction l as [|x l IH]; cbn; [reflexivity|].
  intros H. rewrite (H x) by now left.
  apply IH. intros y Hy. apply H. now right.
Qed.

(** C7.  For a non-empty filter string [s], with [all] the dictionaries of
    the stored orders as [get_all_orders] lists them,
    [get_orders_by_status] returns exactly those of [all] whose status is
    [s] and [get_orders_by_customer] exactly those whose customer is [s];
    both return, in the state they started in, and give the empty list when
    no stored order matches. *)
Theorem filtered_listings_exact (w : World) (s : string) :
  s <> "" ->
  let all := map (fun r => Order.as_dict (heap w r)) (dict_values (orders w)) in
  OrderTracker.get_all_orders w = Ok all w /\
  OrderTracker.get_orders_by_status (PyStr s) w =
    Ok (filter (has_status s) all) w /\
  OrderTracker.get_orders_by_customer (PyStr s) w =
    Ok (filter (has_customer s) all) w /\
  (forall d, In d (filter (has_status s) all) <->
             In d all /\ data_status d = Some s) /\
  (forall d, In d (filter (has_customer s) all) <->
             In d all /\ data_customer_id d = s) /\
  ((forall d, In d all -> data_status d <> Some s) ->
   OrderTracker.get_orders_by_status (PyStr s) w = Ok [] w) /\
  ((forall d, In d all -> data_customer_id d <> s) ->
   OrderTracker.get_orders_by_customer (PyStr s) w = Ok [] w).
Proof.
  intros Hs all.
  assert (Hstr : nonempty_str (PyStr s) = true) by now apply nonempty_str_PyStr.
  assert (Hstatus : OrderTracker.get_orders_by_status (PyStr s) w =
                    Ok (filter (has_status s) all) w).
  { rewrite get_orders_by_status_valid by exact Hstr. cbn [str_value].
    f_equal.
    apply (filter_map_as_dict (has_status s) (fun o => (status o =? s)%string)).
    reflexivity. }
  assert (Hcustomer : OrderTracker.get_orders_by_customer (PyStr s) w =
                      Ok (filter (has_customer s) all) w).
  { rewrite get_orders_by_customer_valid by exact Hstr. cbn [str_value].
    f_equal.
    apply (filter_map_as_dict (has_customer s)
             (fun o => (customer_id o =? s)%string)).
    reflexivity. }
  assert (Hhas_status : forall d, has_status s d = true <-> data_status d = Some s).
  { intros d. unfold has_status. destruct (data_status d) as [s'|].
    - rewrite String.eqb_eq. split; congruence.
    - split; discriminate. }
  assert (Hhas_customer :
            forall d, has_customer s d = true <-> data_customer_id d = s).
  { intros d. unfold has_customer. apply String.eqb_eq. }
  split; [apply get_all_orders_run|].
  split; [exact Hstatus|]. split; [exact Hcustomer|].
  split; [intros d; now rewrite filter_In, Hhas_status|].
  split; [intros d; now rewrite filter_In, Hhas_customer|].
  split; intros Hnone.
  - rewrite Hstatus. f_equal. apply filter_none. intros d Hd.
    apply not_true_is_false. rewrite Hhas_status. now apply Hnone.
  - rewrite Hcustomer. f_equal. apply filter_none. intros d Hd.
    apply not_true_is_false. rewrite Hhas_customer. now apply Hnone.
Qed.

Lemma filtered_listings_exact_witness :
  let w := two_orders_world in
  let all := map (fun r => Order.as_dict (heap w r)) (dict_values (orders w)) in
  "shipped" <> "" /\
  OrderTracker.get_all_orders w = Ok all w /\
  OrderTracker.get_orders_by_status (PyStr "shipped") w =
    Ok (filter (has_status "shipped") all) w /\
  OrderTracker.get_orders_by_customer (PyStr "shipped") w =
    Ok (filter (has_customer "shipped") all) w /\
  (forall d, In d (filter (has_status "shipped") all) <->
             In d all /\ data_status d = Some "shipped") /\
  (forall d, In d (filter (has_customer "shipped") all) <->
             In d all /\ data_customer_id d = "shipped") /\
  ((forall d, In d all -> data_status d <> Some "shipped") ->
   OrderTracker.get_orders_by_status (PyStr "shipped") w = Ok [] w) /\
  ((forall d, In d all -> data_customer_id d <> "shipped") ->
   OrderTracker.get_orders_by_customer (PyStr "shipped") w = Ok [] w).
Proof.
  intros w all.
  assert (Hs : "shipped" <> "") by discriminate.
  split; [exact Hs|].
  exact (filtered_listings_exact two_orders_world "shipped" Hs).
Defined.

Example get_orders_by_status_shipped :
  option_map (map data_order_id)
    (returned (OrderTracker.get_orders_by_status (PyStr "shipped")
                 two_orders_world)) = Some ["ORD002"].
Proof. vm_compute. reflexivity. Qed.

Example get_orders_by_customer_first :
  option_map (map data_order_id)
    (returned (OrderTracker.get_orders_by_customer (PyStr "CUST001")
                 two_orders_world)) = Some ["ORD001"].
Proof. vm_compute. reflexivity. Qed.

Example get_order_nonexistent :
  returned (OrderTracker.get_order (PyStr "NONEXISTENT")
              (empty_world us_clock)) = Some None.
Proof. vm_compute. reflexivity. Qed.

(** ** The order of the two timestamps *)

(** C9, counterexample.  An order is created just before the wall clock is
    set back an hour and updated just after: in the state reached, the
    stored order has [created_at] later than [updated_at]. *)
Lemma created_at_after_updated_at :
  let w := run (UpdateOrderStatus (PyStr "ORD001") (PyStr "shipped"))
               fallback_world in
  reachable w /\
  In ("ORD001", 0) (orders w) /\
  created_at (heap w 0) = Some (datetime.mk 2025 10 26 2 59 59 999998) /\
  updated_at (heap w 0) = Some (datetime.mk 2025 10 26 2 0 0 0) /\
  datetime.leb (datetime.mk 2025 10 26 2 59 59 999998)
               (datetime.mk 2025 10 26 2 0 0 0) = false.
Proof.
  intros w.
  split; [do 2 apply reach_step; apply reach_init; reflexivity|].
  split; [apply dict_get_In; vm_compute; reflexivity|].
  repeat split; vm_compute; reflexivity.
Qed.

(** C9, amended.  In every state the tracker reaches from an empty storage
    by calls of its public methods, provided the readings of the clock never
    decrease, every stored order has both timestamps set and
    [created_at <= updated_at]. *)
Theorem created_at_le_updated_at (w : World) :
  reachable w -> clock_monotone (clock w) ->
  forall k r, In (k, r) (orders w) ->
  exists c u,
    created_at (heap w r) = Some c /\ updated_at (heap w r) = Some u /\
    datetime.le c u.
Proof.
  intros Hreach Hmono k r Hin.
  destruct (reachable_timestamps_ok w Hreach Hmono k r Hin)
    as (c & u & Hc & Hu & Hle & _).
  now exists c, u.
Qed.

Lemma created_at_le_updated_at_witness :
  let w := one_order_world in
  reachable w /\
  In ("ORD001", 0) (orders w) /\
  exists c u,
    created_at (heap w 0) = Some c /\
    updated_at (heap w 0) = Some u /\
    datetime.le c u.
Proof.
  intros w.
  assert (Hin : In ("ORD001", 0) (orders w))
    by (apply dict_get_In; vm_compute; reflexivity).
  split; [exact one_order_world_reachable|].
  split; [exact Hin|].
  exact (created_at_le_updated_at w one_order_world_reachable
           one_order_world_clock_monotone "ORD001" 0 Hin).
Defined.

(** ** Data representation *)

Lemma isoformat_not_empty (d : datetime.t) :
  (datetime.isoformat d =? "")%string = false.
Proof. reflexivity. Qed.

Lemma parse_timestamp_isoformat (d : datetime.t) (w : World) :
  datetime.valid d = true ->
  Order.parse_timestamp (Some (datetime.isoformat d)) w = Ok (Some d) w.
Proof.
  intros Hvalid. unfold Order.parse_timestamp.
  rewrite isoformat_not_empty, fromisoformat_isoformat by exact Hvalid.
  reflexivity.
Qed.

(** C10.  For an [Order] whose two timestamps are set,
    [Order.from_dict(order.to_dict())] returns an order with the same seven
    fields as the original, and the clock is not read. *)
Theorem from_dict_to_dict_round_trip
    (w : World) (order : ref) (c u : datetime.t) :
  created_at (heap w order) = Some c -> updated_at (heap w order) = Some u ->
  datetime.valid c = true -> datetime.valid u = true ->
  exists order' w',
    (data <- Order.to_dict order ;; Order.from_dict data) w = Ok order' w' /\
    heap w' order' = heap w order /\
    ticks w' = ticks w.
Proof.
  intros Hc Hu Hvc Hvu.
  unfold bind at 1, Order.to_dict. unfold bind at 1. cbn [deref ret].
  unfold Order.from_dict, Order.as_dict. cbn [data_created_at data_updated_at].
  rewrite Hc, Hu. cbn [Order.isoformat_opt].
  unfold bind at 1. rewrite parse_timestamp_isoformat by exact Hvc.
  unfold bind at 1. rewrite parse_timestamp_isoformat by exact Hvu.
  unfold Order.init, Order.post_init, alloc, deref, assign, ret, bind.
  cbn. repeat (rewrite Nat.eqb_refl; cbn).
  eexists _, _. split; [reflexivity|]. cbn.
  rewrite Nat.eqb_refl.
  destruct (heap w order) as [oid item q cust st ca ua]. cbn in *.
  now subst.
Qed.

Lemma from_dict_to_dict_round_trip_witness :
  let w := one_order_world in
  created_at (heap w 0) = Some (us_clock 0) /\
  updated_at (heap w 0) = Some (us_clock 1) /\
  exists order' w',
    (data <- Order.to_dict 0 ;; Order.from_dict data) w = Ok order' w' /\
    heap w' order' = heap w 0 /\
    ticks w' = ticks w.
Proof.
  intros w.
  assert (Hc : created_at (heap w 0) = Some (us_clock 0))
    by (vm_compute; reflexivity).
  assert (Hu : updated_at (heap w 0) = Some (us_clock 1))
    by (vm_compute; reflexivity).
  split; [exact Hc|]. split; [exact Hu|].
  apply (from_dict_to_dict_round_trip w 0 (us_clock 0) (us_clock 1) Hc Hu);
    vm_compute; reflexivity.
Defined.

(** * Further properties of the code *)

(** ** More on dictionaries *)

Lemma dict_get_None_keys {V : Type} (d : dict V) (k : string) :
  dict_get d k = None <-> ~ In k (map fst d).
Proof.
  induction d as [|[k' v] d IH]; cbn; [tauto|].
  destruct (String.eqb_spec k' k) as [->|Hne].
  - split; [discriminate | intros H; exfalso; apply H; now left].
  - rewrite IH. split; [intros H [H'|H']; auto | tauto].
Qed.

Lemma dict_set_fresh {V : Type} (d : dict V) (k : string) (v : V) :
  dict_get d k = None -> dict_set d k v = (d ++ [(k, v)])%list.
Proof.
  induction d as [|[k' v'] d IH]; cbn; [reflexivity|].
  destruct (k' =? k)%string; [discriminate|].
  intros H. now rewrite IH.
Qed.

Lemma dict_set_same_value {V : Type} (d : dict V) (k : string) (v : V) :
  dict_get d k = Some v -> dict_set d k v = d.
Proof.
  induction d as [|[k' v'] d IH]; cbn; [discriminate|].
  destruct (k' =? k)%string.
  - now intros [= ->].
  - intros H. now rewrite IH.
Qed.

Lemma dict_In_get {V : Type} (d : dict V) (k : string) (v : V) :
  NoDup (map fst d) -> In (k, v) d -> dict_get d k = Some v.
Proof.
  induction d as [|[k' v'] d IH]; cbn; [tauto|].
  intros Hnodup [H|H].
  - injection H as -> ->. now rewrite String.eqb_refl.
  - inversion Hnodup as [|x l Hnotin Hnodup']; subst.
    destruct (String.eqb_spec k' k) as [->|Hne].
    + exfalso. apply Hnotin. change k with (fst (k, v)). now apply in_map.
    + now apply IH.
Qed.

Lemma dict_get_del_same {V : Type} (d : dict V) (k : string) :
  dict_get (dict_del d k) k = None.
Proof.
  induction d as [|[k' v] d IH]; cbn; [reflexivity|].
  destruct (k' =? k)%string eqn:Hk; [exact IH|].
  cbn. now rewrite Hk.
Qed.

Lemma dict_get_del_other {V : Type} (d : dict V) (k k0 : string) :
  k <> k0 -> dict_get (dict_del d k) k0 = dict_get d k0.
Proof.
  intros Hne.
  induction d as [|[k' v] d IH]; cbn; [reflexivity|].
  destruct (String.eqb_spec k' k) as [->|Hk].
  - apply String.eqb_neq in Hne. now rewrite Hne.
  - cbn. now rewrite IH.
Qed.

Lemma dict_del_absent {V : Type} (d : dict V) (k : string) :
  dict_get d k = None -> dict_del d k = d.
Proof.
  induction d as [|[k' v] d IH]; cbn; [reflexivity|].
  destruct (k' =? k)%string; [discriminate|].
  intros H. now rewrite IH.
Qed.

Lemma dict_del_length {V : Type} (d : dict V) (k : string) (v : V) :
  NoDup (map fst d) -> dict_get d k = Some v ->
  S (List.length (dict_del d k)) = List.length d.
Proof.
  induction d as [|[k' v'] d IH]; cbn; [discriminate|].
  intros Hnodup. inversion Hnodup as [|x l Hnotin Hnodup']; subst.
  destruct (String.eqb_spec k' k) as [->|Hk].
  - intros _. rewrite dict_del_absent; [reflexivity|].
    now apply dict_get_None_keys.
  - intros H. cbn. f_equal. now apply IH.
Qed.

(** ** The steps of a run, in full *)

Lemma run_step (c : Call) (w : World) :
  (run c w = w /\ forall e w', exec c w = Raise e w' -> w' = w) \/
  (exists a b q d, c = CreateOrder a b q d /\ step_created w (run c w) a b q d) \/
  (exists a s r, c = UpdateOrderStatus a s /\ step_updated w (run c w) a s r).
Proof.
  unfold run.
  destruct c as [a b q d | a | a s | | s | a]; cbn [exec]; unfold bind.
  - destruct (OrderTracker.create_order a b q d w) as [data w'|e w'] eqn:Hrun.
    + right. left. exists a, b, q, d. split; [reflexivity|].
      destruct (create_order_ok_inv _ _ _ _ _ _ _ Hrun)
        as (Ha & Hb & Hq & Hd & Hfresh).
      destruct (create_order_valid w a b q d Ha Hb Hq Hd Hfresh)
        as (w1 & Hrun1 & _ & _ & Hheap & Hnext & Horders).
      rewrite Hrun in Hrun1. injection Hrun1 as -> <-.
      cbn [ret final]. unfold step_created. now repeat split.
    + left. cbn [final].
      assert (w' = w) by (eapply create_order_raise_keeps_state; eauto).
      subst w'. split; [reflexivity|]. now intros e0 w0 [= _ <-].
  - left. destruct (nonempty_str a) eqn:Ha.
    + rewrite get_order_valid by assumption. cbn. split; [reflexivity|discriminate].
    + checks_fail. split; [reflexivity|]. now intros e w' [= _ <-].
  - destruct (nonempty_str a) eqn:Ha;
      [|left; checks_fail; split; [reflexivity|]; now intros e w' [= _ <-]].
    destruct (nonempty_str s) eqn:Hs;
      [|left; checks_fail; split; [reflexivity|]; now intros e w' [= _ <-]].
    destruct (dict_get (orders w) (str_value a)) as [r|] eqn:Hget.
    + right. right. exists a, s, r. split; [reflexivity|].
      destruct (update_order_status_found w a s r Ha Hs Hget)
        as (w1 & Hrun1 & _ & _ & Hheap & Hnext & Horders).
      rewrite Hrun1. cbn [ret final]. unfold step_updated. now repeat split.
    + left. rewrite update_order_status_unknown by assumption. cbn.
      split; [reflexivity|discriminate].
  - left. rewrite get_all_orders_run. cbn. split; [reflexivity|discriminate].
  - left. destruct (nonempty_str s) eqn:Hs.
    + rewrite get_orders_by_status_valid by assumption. cbn.
      split; [reflexivity|discriminate].
    + checks_fail. split; [reflexivity|]. now intros e w' [= _ <-].
  - left. destruct (nonempty_str a) eqn:Ha.
    + rewrite get_orders_by_customer_valid by assumption. cbn.
      split; [reflexivity|discriminate].
    + checks_fail. split; [reflexivity|]. now intros e w' [= _ <-].
Qed.

Lemma nonempty_str_value (v : PyVal) :
  nonempty_str v = true -> v = PyStr (str_value v) /\ str_value v <> "".
Proof.
  destruct v as [| b | z | q | s | l | d]; cbn; try discriminate.
  intros H. split; [reflexivity|]. intros ->. discriminate.
Qed.

(** ** The shape of the storage *)

Lemma storage_ok_created (w w' : World) (a b q c : PyVal) :
  storage_ok w -> step_created w w' a b q c -> storage_ok w'.
Proof.
  intros (Hkeys & Hvals & Hall)
         (Ha & Hb & Hq & Hc & Hfresh & _ & Hheap & Hnext & Horders).
  rewrite (dict_set_fresh _ _ _ Hfresh) in Horders.
  unfold storage_ok, dict_values. rewrite Horders, !map_app. cbn.
  assert (Hold : forall r, In r (map snd (orders w)) -> r < next_ref w).
  { intros r Hr. apply in_map_iff in Hr. destruct Hr as ([k r'] & <- & Hin).
    now apply (Hall k r'). }
  split; [|split].
  - apply NoDup_app; [exact Hkeys | repeat constructor; intros [] |].
    intros k Hk [<-|[]]. now apply dict_get_None_keys in Hfresh.
  - apply NoDup_app; [exact Hvals | repeat constructor; intros [] |].
    intros r Hr [<-|[]]. apply Hold in Hr. lia.
  - intros k r H. apply in_app_iff in H. rewrite Hheap, Hnext.
    destruct H as [H|[H|[]]].
    + destruct (Hall k r H) as (Hlt & Hok).
      replace (r =? next_ref w) with false by (symmetry; apply Nat.eqb_neq; lia).
      split; [lia | exact Hok].
    + injection H as <- <-. rewrite Nat.eqb_refl.
      split; [lia|].
      unfold order_fields_ok. cbn.
      repeat split; try (now apply nonempty_str_value); try assumption.
      discriminate.
Qed.

Lemma storage_ok_updated (w w' : World) (a s : PyVal) (r : ref) :
  storage_ok w -> step_updated w w' a s r ->
  storage_ok w' /\ orders w' = orders w.
Proof.
  intros (Hkeys & Hvals & Hall)
         (Ha & Hs & Hget & _ & Hheap & Hnext & Horders).
  destruct (Hall _ _ (dict_get_In _ _ _ Hget)) as (Hlt & Hid & Hrest).
  rewrite Hid, (dict_set_same_value _ _ _ Hget) in Horders.
  split; [|exact Horders].
  unfold storage_ok. rewrite Horders, Hnext.
  split; [exact Hkeys|]. split; [exact Hvals|].
  intros k r0 H. destruct (Hall k r0 H) as (Hlt0 & Hok0).
  split; [exact Hlt0|].
  rewrite Hheap. destruct (Nat.eqb_spec r0 r) as [->|Hne]; [|exact Hok0].
  destruct Hok0 as (Hid' & Hk' & Hitem & Hcust & Hq & _).
  unfold order_fields_ok. cbn.
  repeat split; try assumption. now apply nonempty_str_value.
Qed.

Lemma reachable_storage_ok (w : World) : reachable w -> storage_ok w.
Proof.
  induction 1 as [w Hempty | w c Hreach IH].
  - unfold storage_ok, dict_values. rewrite Hempty. cbn.
    repeat split; try constructor; contradiction.
  - destruct (run_step c w)
      as [[-> _] | [(a & b & q & d & _ & H) | (a & s & r & _ & H)]].
    + exact IH.
    + eapply storage_ok_created; eauto.
    + eapply storage_ok_updated; eauto.
Qed.

Lemma reachable_runs (cs : list Call) (w : World) :
  reachable w -> reachable (runs cs w).
Proof.
  revert w. induction cs as [|c cs IH]; intros w Hreach; cbn; [exact Hreach|].
  apply IH. now apply reach_step.
Qed.

Lemma NoDup_values_key {V : Type} (d : dict V) (k1 k2 : string) (v : V) :
  NoDup (dict_values d) -> In (k1, v) d -> In (k2, v) d -> k1 = k2.
Proof.
  unfold dict_values.
  induction d as [|[k v'] d IH]; cbn; [tauto|].
  intros Hnodup. inversion Hnodup as [|x l Hnotin Hnodup']; subst.
  assert (Hin : forall k0, In (k0, v') d -> False).
  { intros k0 H0. apply Hnotin. change v' with (snd (k0, v')). now apply in_map. }
  intros [H1|H1] [H2|H2].
  - congruence.
  - injection H1 as -> ->. exfalso. eauto.
  - injection H2 as -> ->. exfalso. eauto.
  - now apply IH.
Qed.

Lemma get_order_str (w : World) (oid : string) :
  oid <> "" ->
  OrderTracker.get_order (PyStr oid) w =
  Ok (option_map (fun r => Order.as_dict (heap w r)) (dict_get (orders w) oid)) w.
Proof.
  intros Hoid. now rewrite get_order_valid by now apply nonempty_str_PyStr.
Qed.

Lemma get_order_empty_id (w : World) :
  OrderTracker.get_order (PyStr "") w = Raise (ValueError "order_id is mandatory") w.
Proof. reflexivity. Qed.

(** A property of objects that new orders have and status updates keep
    holds of every stored order. *)
Lemma reachable_stored_forall (P : Order -> Prop) :
  (forall a b q c t1 t2, P (mkOrder a b q c "pending" (Some t1) (Some t2))) ->
  (forall o s t, P o -> P (set_updated_at (Some t) (set_status s o))) ->
  forall w, reachable w ->
  forall k r, In (k, r) (orders w) -> P (heap w r).
Proof.
  intros Hnew Hupd.
  induction 1 as [w Hempty | w c Hreach IH].
  - intros k r Hin. rewrite Hempty in Hin. destruct Hin.
  - pose proof (reachable_storage_ok w Hreach) as Hok.
    destruct (run_step c w)
      as [[-> _] | [(a & b & q & d & _ & H) | (a & s & r0 & _ & H)]];
      [exact IH | |].
    + destruct H as (_ & _ & _ & _ & _ & _ & Hheap & _ & Horders).
      intros k r Hin. rewrite Hheap.
      destruct (Nat.eqb_spec r (next_ref w)) as [->|Hne]; [apply Hnew|].
      rewrite Horders in Hin.
      destruct (dict_set_In _ _ _ _ _ Hin) as [Hold | ->]; [eauto | tauto].
    + destruct (storage_ok_updated _ _ _ _ _ Hok H) as (_ & Horders).
      destruct H as (_ & _ & Hget & _ & Hheap & _ & _).
      intros k r Hin. rewrite Hheap. rewrite Horders in Hin.
      destruct (r =? r0); [|eauto].
      apply Hupd. exact (IH _ _ (dict_get_In _ _ _ Hget)).
Qed.

Lemma reachable_timestamps_set (w : World) :
  reachable w ->
  forall k r, In (k, r) (orders w) ->
  created_at (heap w r) <> None /\ updated_at (heap w r) <> None.
Proof.
  apply (reachable_stored_forall
           (fun o => created_at o <> None /\ updated_at o <> None)).
  - intros. cbn. split; discriminate.
  - intros o s t [Hc _]. cbn. split; [exact Hc | discriminate].
Qed.

(** ** What the storage holds in a reachable state *)

Lemma listing_ids (h : ref -> Order) (d : dict ref) :
  (forall k r, In (k, r) d -> order_id (h r) = k) ->
  map data_order_id (map (fun r => Order.as_dict (h r)) (dict_values d)) =
  map fst d.
Proof.
  unfold dict_values.
  induction d as [|[k r] d IH]; cbn; [reflexivity|].
  intros Hall. rewrite (Hall k r) by now left.
  f_equal. apply IH. intros k' r' Hin. apply Hall. now right.
Qed.

Lemma reachable_listing_ids (w : World) :
  reachable w ->
  map data_order_id
      (map (fun r => Order.as_dict (heap w r)) (dict_values (orders w))) =
  map fst (orders w).
Proof.
  intros Hreach. apply listing_ids. intros k r Hin.
  destruct (reachable_storage_ok w Hreach) as (_ & _ & Hall).
  now destruct (Hall k r Hin) as (_ & Hid & _).
Qed.

(** X1.  In every state the tracker reaches from an empty storage, the
    dictionaries that [get_all_orders] lists carry pairwise distinct
    [order_id]s. *)
Theorem stored_orders_have_distinct_ids (w : World) :
  reachable w ->
  exists all,
    OrderTracker.get_all_orders w = Ok all w /\
    NoDup (map data_order_id all).
Proof.
  intros Hreach.
  exists (map (fun r => Order.as_dict (heap w r)) (dict_values (orders w))).
  split; [apply get_all_orders_run|].
  rewrite reachable_listing_ids by assumption.
  now destruct (reachable_storage_ok w Hreach) as (Hkeys & _).
Qed.

(** X2.  In every reachable state, each order that [get_all_orders] lists
    still passes the checks it was created and updated under: non-empty
    [order_id], [item_name] and [customer_id], a quantity that is a positive
    integer, a non-empty status, and both timestamps present. *)
Theorem stored_orders_keep_validated_fields (w : World) :
  reachable w ->
  exists all,
    OrderTracker.get_all_orders w = Ok all w /\
    forall d, In d all ->
      nonempty_str (PyStr (data_order_id d)) = true /\
      nonempty_str (PyStr (data_item_name d)) = true /\
      positive_int (data_quantity d) = true /\
      nonempty_str (PyStr (data_customer_id d)) = true /\
      (exists s, data_status d = Some s /\ s <> "") /\
      data_created_at d <> None /\ data_updated_at d <> None.
Proof.
  intros Hreach.
  eexists. split; [apply get_all_orders_run|].
  unfold dict_values. rewrite map_map. intros d Hin.
  apply in_map_iff in Hin. destruct Hin as ([k r] & <- & Hin).
  cbn [snd Order.as_dict data_order_id data_item_name data_quantity
       data_customer_id data_status data_created_at data_updated_at].
  destruct (reachable_storage_ok w Hreach) as (_ & _ & Hall).
  destruct (Hall k r Hin) as (_ & Hid & Hk & Hitem & Hcust & Hq & Hst).
  destruct (reachable_timestamps_set w Hreach k r Hin) as (Hc & Hu).
  split; [apply nonempty_str_PyStr; congruence|].
  split; [now apply nonempty_str_PyStr|].
  split; [exact Hq|].
  split; [now apply nonempty_str_PyStr|].
  split; [now exists (status (heap w r))|].
  split.
  - destruct (created_at (heap w r)); [discriminate | tauto].
  - destruct (updated_at (heap w r)); [discriminate | tauto].
Qed.

Lemma get_order_ok_inv (w w' : World) (oid : string) (x : option OrderData) :
  OrderTracker.get_order (PyStr oid) w = Ok x w' ->
  oid <> "" /\ w' = w /\
  x = option_map (fun r => Order.as_dict (heap w r)) (dict_get (orders w) oid).
Proof.
  destruct (String.eqb_spec oid "") as [->|Hne].
  - rewrite get_order_empty_id. discriminate.
  - rewrite get_order_str by assumption. intros [= <- <-]. now repeat split.
Qed.

(** X3.  In a reachable state, [get_order] on [oid] returns the dictionary
    [d] exactly when [get_all_orders] lists [d] and [d] carries the
    [order_id] [oid]. *)
Theorem get_order_agrees_with_listing (w : World) (oid : string) (d : OrderData) :
  reachable w ->
  exists all,
    OrderTracker.get_all_orders w = Ok all w /\
    (OrderTracker.get_order (PyStr oid) w = Ok (Some d) w <->
     In d all /\ data_order_id d = oid).
Proof.
  intros Hreach.
  destruct (reachable_storage_ok w Hreach) as (Hkeys & _ & Hall).
  eexists. split; [apply get_all_orders_run|].
  unfold dict_values. rewrite map_map. split.
  - intros Hget. apply get_order_ok_inv in Hget.
    destruct Hget as (Hoid & _ & Hd).
    destruct (dict_get (orders w) oid) as [r|] eqn:Hr; [|discriminate].
    injection Hd as ->. apply dict_get_In in Hr.
    split.
    + apply in_map_iff. exists (oid, r). split; [reflexivity | exact Hr].
    + cbn. now destruct (Hall oid r Hr) as (_ & Hid & _).
  - intros [Hin Hid]. apply in_map_iff in Hin.
    destruct Hin as ([k r] & <- & Hin). cbn in Hid.
    destruct (Hall k r Hin) as (_ & Hid' & Hk & _).
    assert (Hko : k = oid) by congruence.
    rewrite Hko in Hin, Hk.
    rewrite get_order_str by assumption.
    now rewrite (dict_In_get _ _ _ Hkeys Hin).
Qed.

(** ** What a call changes *)

Lemma stored_order_step (c : Call) (w : World) (oid : string) (r : ref) :
  reachable w -> dict_get (orders w) oid = Some r ->
  dict_get (orders (run c w)) oid = Some r /\
  order_id (heap (run c w) r) = order_id (heap w r) /\
  item_name (heap (run c w) r) = item_name (heap w r) /\
  quantity (heap (run c w) r) = quantity (heap w r) /\
  customer_id (heap (run c w) r) = customer_id (heap w r) /\
  created_at (heap (run c w) r) = created_at (heap w r).
Proof.
  intros Hreach Hget.
  pose proof (reachable_storage_ok w Hreach) as Hok.
  destruct (run_step c w)
    as [[-> _] | [(a & b & q & d & _ & H) | (a & s & r0 & _ & H)]].
  - now repeat split.
  - destruct H as (_ & _ & _ & _ & Hfresh & _ & Hheap & _ & Horders).
    destruct Hok as (_ & _ & Hall).
    destruct (Hall _ _ (dict_get_In _ _ _ Hget)) as (Hlt & _).
    rewrite Horders, Hheap.
    replace (r =? next_ref w) with false by (symmetry; apply Nat.eqb_neq; lia).
    split; [|now repeat split].
    rewrite dict_get_set_other; [exact Hget|].
    intros Heq. rewrite Heq in Hfresh. congruence.
  - destruct (storage_ok_updated _ _ _ _ _ Hok H) as (_ & Horders).
    destruct H as (_ & _ & _ & _ & Hheap & _ & _).
    rewrite Horders, Hheap.
    split; [exact Hget|].
    destruct (Nat.eqb_spec r r0) as [->|Hne]; now repeat split.
Qed.

Lemma as_dict_identity (o o' : Order) :
  order_id o' = order_id o -> item_name o' = item_name o ->
  quantity o' = quantity o -> customer_id o' = customer_id o ->
  created_at o' = created_at o ->
  data_order_id (Order.as_dict o') = data_order_id (Order.as_dict o) /\
  data_item_name (Order.as_dict o') = data_item_name (Order.as_dict o) /\
  data_quantity (Order.as_dict o') = data_quantity (Order.as_dict o) /\
  data_customer_id (Order.as_dict o') = data_customer_id (Order.as_dict o) /\
  data_created_at (Order.as_dict o') = data_created_at (Order.as_dict o).
Proof. cbn. intros -> -> -> -> ->. now repeat split. Qed.

Lemma stored_order_runs (cs : list Call) (w : World) (oid : string) (r : ref) :
  reachable w -> dict_get (orders w) oid = Some r ->
  dict_get (orders (runs cs w)) oid = Some r /\
  order_id (heap (runs cs w) r) = order_id (heap w r) /\
  item_name (heap (runs cs w) r) = item_name (heap w r) /\
  quantity (heap (runs cs w) r) = quantity (heap w r) /\
  customer_id (heap (runs cs w) r) = customer_id (heap w r) /\
  created_at (heap (runs cs w) r) = created_at (heap w r).
Proof.
  revert w. induction cs as [|c cs IH]; intros w Hreach Hget; cbn [runs].
  - now repeat split.
  - destruct (stored_order_step c w oid r Hreach Hget)
      as (Hget1 & H1 & H2 & H3 & H4 & H5).
    destruct (IH (run c w) (reach_step _ c Hreach) Hget1)
      as (Hget2 & K1 & K2 & K3 & K4 & K5).
    split; [exact Hget2|]. repeat split; congruence.
Qed.

(** X4.  An order that [get_order] finds in a reachable state is still found
    after any sequence of calls of the public methods, with the same
    [order_id], [item_name], [quantity], [customer_id] and [created_at]. *)
Theorem stored_orders_persist
    (w : World) (cs : list Call) (oid : string) (d : OrderData) :
  reachable w ->
  OrderTracker.get_order (PyStr oid) w = Ok (Some d) w ->
  exists d',
    OrderTracker.get_order (PyStr oid) (runs cs w) = Ok (Some d') (runs cs w) /\
    data_order_id d' = data_order_id d /\
    data_item_name d' = data_item_name d /\
    data_quantity d' = data_quantity d /\
    data_customer_id d' = data_customer_id d /\
    data_created_at d' = data_created_at d.
Proof.
  intros Hreach Hget. apply get_order_ok_inv in Hget.
  destruct Hget as (Hoid & _ & Hd).
  destruct (dict_get (orders w) oid) as [r|] eqn:Hr; [|discriminate].
  injection Hd as ->.
  destruct (stored_order_runs cs w oid r Hreach Hr)
    as (Hget' & H1 & H2 & H3 & H4 & H5).
  exists (Order.as_dict (heap (runs cs w) r)).
  split.
  - rewrite get_order_str by assumption. now rewrite Hget'.
  - now apply as_dict_identity.
Qed.

(** X5.  In a reachable state, a call that does not name [oid] as the order
    to create or to update leaves what [get_order] returns for [oid] as it
    was. *)
Theorem calls_change_only_the_named_order
    (w : World) (c : Call) (oid : string) :
  reachable w -> names c oid = false ->
  returned (OrderTracker.get_order (PyStr oid) (run c w)) =
  returned (OrderTracker.get_order (PyStr oid) w).
Proof.
  intros Hreach Hnames.
  destruct (String.eqb_spec oid "") as [->|Hoid];
    [now rewrite !get_order_empty_id|].
  rewrite !get_order_str by assumption. cbn [returned]. f_equal.
  pose proof (reachable_storage_ok w Hreach) as Hok.
  destruct (run_step c w)
    as [[-> _] | [(a & b & q & d & -> & H) | (a & s & r0 & -> & H)]];
    [reflexivity | |].
  - destruct H as (Ha & _ & _ & _ & Hfresh & _ & Hheap & _ & Horders).
    destruct (nonempty_str_value a Ha) as (Heq & _).
    rewrite Heq in Hnames. cbn in Hnames. apply String.eqb_neq in Hnames.
    rewrite Horders, dict_get_set_other by exact Hnames.
    destruct (dict_get (orders w) oid) as [r|] eqn:Hr; [|reflexivity].
    cbn. rewrite Hheap.
    destruct Hok as (_ & _ & Hall).
    destruct (Hall _ _ (dict_get_In _ _ _ Hr)) as (Hlt & _).
    now replace (r =? next_ref w) with false
      by (symmetry; apply Nat.eqb_neq; lia).
  - destruct (storage_ok_updated _ _ _ _ _ Hok H) as (_ & Horders).
    destruct H as (Ha & _ & Hget & _ & Hheap & _ & _).
    destruct (nonempty_str_value a Ha) as (Heq & _).
    rewrite Heq in Hnames. cbn in Hnames. apply String.eqb_neq in Hnames.
    rewrite Horders.
    destruct (dict_get (orders w) oid) as [r|] eqn:Hr; [|reflexivity].
    cbn. rewrite Hheap.
    destruct (Nat.eqb_spec r r0) as [->|Hne]; [|reflexivity].
    exfalso. apply Hnames.
    destruct Hok as (_ & Hvals & _).
    eapply NoDup_values_key; eauto using dict_get_In.
Qed.

(** ** Listings along a run *)

Lemma listing_ext (h h' : ref -> Order) (l : list ref) :
  (forall r, In r l -> h' r = h r) ->
  map (fun r => Order.as_dict (h' r)) l = map (fun r => Order.as_dict (h r)) l.
Proof.
  intros H. apply map_ext_in. intros r Hr. now rewrite H.
Qed.

(** X6.  In a reachable state, a call of [create_order] that returns puts
    the dictionary it returns at the end of what [get_all_orders] lists and
    leaves the earlier entries as they were. *)
Theorem create_order_appends_to_listing
    (w : World) (order_id item_name quantity customer_id : PyVal) :
  reachable w ->
  let r := OrderTracker.create_order order_id item_name quantity customer_id w in
  is_ok r = true ->
  exists all d,
    OrderTracker.get_all_orders w = Ok all w /\
    returned r = Some d /\
    OrderTracker.get_all_orders (final r) = Ok (all ++ [d])%list (final r).
Proof.
  intros Hreach r Hok. subst r.
  destruct (OrderTracker.create_order order_id item_name quantity customer_id w)
    as [d w'|e w'] eqn:Hrun; [clear Hok | discriminate Hok].
  destruct (create_order_ok_inv _ _ _ _ _ _ _ Hrun) as (Ha & Hb & Hq & Hc & Hfresh).
  destruct (create_order_valid w _ _ _ _ Ha Hb Hq Hc Hfresh)
    as (w1 & Hrun1 & _ & _ & Hheap & _ & Horders).
  rewrite Hrun in Hrun1. injection Hrun1 as -> <-.
  destruct (reachable_storage_ok w Hreach) as (_ & _ & Hall).
  eexists _, _. split; [apply get_all_orders_run|].
  split; [reflexivity|]. cbn [final].
  rewrite get_all_orders_run. f_equal.
  rewrite Horders, (dict_set_fresh _ _ _ Hfresh).
  unfold dict_values. rewrite !map_app. cbn [map snd].
  rewrite Hheap, Nat.eqb_refl. f_equal.
  apply map_ext_in. intros x Hx. rewrite Hheap.
  apply in_map_iff in Hx. destruct Hx as ([k x'] & <- & Hin). cbn.
  destruct (Hall k x' Hin) as (Hlt & _).
  now replace (x' =? next_ref w) with false
    by (symmetry; apply Nat.eqb_neq; lia).
Qed.

Lemma update_order_status_some_inv (w : World) (a s : PyVal) (d : OrderData) :
  returned (OrderTracker.update_order_status a s w) = Some (Some d) ->
  nonempty_str a = true /\ nonempty_str s = true /\
  exists r0, dict_get (orders w) (str_value a) = Some r0.
Proof.
  destruct (nonempty_str a) eqn:Ha; [|checks_fail; discriminate].
  destruct (nonempty_str s) eqn:Hs; [|checks_fail; discriminate].
  destruct (dict_get (orders w) (str_value a)) as [r0|] eqn:Hget.
  - intros _. repeat split. now exists r0.
  - rewrite update_order_status_unknown by assumption. discriminate.
Qed.

(** An update in a reachable state: the storage dictionary stays as it is
    and one object changes. *)
Lemma update_order_status_reachable (w : World) (a s : PyVal) (r0 : ref) :
  reachable w -> nonempty_str a = true -> nonempty_str s = true ->
  dict_get (orders w) (str_value a) = Some r0 ->
  let o := set_updated_at (Some (clock w (ticks w)))
                          (set_status (str_value s) (heap w r0)) in
  exists w',
    OrderTracker.update_order_status a s w = Ok (Some (Order.as_dict o)) w' /\
    reachable w' /\
    orders w' = orders w /\
    (forall r, heap w' r = if r =? r0 then o else heap w r).
Proof.
  intros Hreach Ha Hs Hget o.
  destruct (update_order_status_found w a s r0 Ha Hs Hget)
    as (w' & Hrun & _ & _ & Hheap & _ & Horders).
  exists w'. split; [exact Hrun|].
  split; [|split; [|exact Hheap]].
  - replace w' with (run (UpdateOrderStatus a s) w);
      [now apply reach_step|].
    unfold run. cbn [exec]. unfold bind. now rewrite Hrun.
  - destruct (reachable_storage_ok w Hreach) as (_ & _ & Hall).
    destruct (Hall _ _ (dict_get_In _ _ _ Hget)) as (_ & Hid & _).
    now rewrite Horders, Hid, (dict_set_same_value _ _ _ Hget).
Qed.

(** X7.  In a reachable state, when [update_order_status] returns the
    dictionary [d], [get_all_orders] afterwards lists what it listed before,
    in the same order, with the entry of that [order_id] replaced by [d]. *)
Theorem update_order_status_rewrites_one_entry
    (w : World) (order_id new_status : PyVal) (d : OrderData) :
  reachable w ->
  let r := OrderTracker.update_order_status order_id new_status w in
  returned r = Some (Some d) ->
  exists all,
    OrderTracker.get_all_orders w = Ok all w /\
    OrderTracker.get_all_orders (final r) =
      Ok (map (fun x => if (data_order_id x =? str_value order_id)%string
                        then d else x) all) (final r).
Proof.
  intros Hreach r Hret. subst r.
  destruct (update_order_status_some_inv _ _ _ _ Hret) as (Ha & Hs & r0 & Hget).
  destruct (update_order_status_reachable w _ _ r0 Hreach Ha Hs Hget)
    as (w' & Hrun & _ & Horders & Hheap).
  rewrite Hrun in *. cbn [final returned] in *. injection Hret as <-.
  destruct (reachable_storage_ok w Hreach) as (Hkeys & Hvals & Hall).
  eexists. split; [apply get_all_orders_run|].
  rewrite get_all_orders_run. f_equal.
  rewrite Horders. unfold dict_values. rewrite !map_map.
  apply map_ext_in. intros [k x] Hin. cbn [snd].
  destruct (Hall k x Hin) as (_ & Hid & _).
  rewrite Hheap.
  replace (data_order_id (Order.as_dict (heap w x))) with k
    by (cbn; now rewrite Hid).
  destruct (Nat.eqb_spec x r0) as [->|Hne].
  - assert (Hk : k = str_value order_id)
      by (eapply NoDup_values_key; eauto using dict_get_In).
    rewrite Hk. now rewrite String.eqb_refl.
  - destruct (String.eqb_spec k (str_value order_id)) as [Hk|Hk];
      [|reflexivity].
    exfalso. apply Hne. rewrite Hk in Hin.
    rewrite (dict_In_get _ _ _ Hkeys Hin) in Hget. congruence.
Qed.

(** ** What a call never does *)

(** X8.  [get_order], [get_all_orders], [get_orders_by_status] and
    [get_orders_by_customer] end in the state they started in, for every
    argument, whether they return or raise. *)
Theorem queries_leave_the_state (w : World) (a : PyVal) :
  final (OrderTracker.get_order a w) = w /\
  final (OrderTracker.get_all_orders w) = w /\
  final (OrderTracker.get_orders_by_status a w) = w /\
  final (OrderTracker.get_orders_by_customer a w) = w.
Proof.
  split; [|split; [|split]].
  - destruct (nonempty_str a) eqn:Ha;
      [now rewrite get_order_valid | checks_fail].
  - now rewrite get_all_orders_run.
  - destruct (nonempty_str a) eqn:Ha;
      [now rewrite get_orders_by_status_valid | checks_fail].
  - destruct (nonempty_str a) eqn:Ha;
      [now rewrite get_orders_by_customer_valid | checks_fail].
Qed.

(** X9.  A call of any public method that raises ends in the state it
    started in. *)
Theorem raising_calls_leave_the_state (c : Call) (w : World) :
  is_ok (exec c w) = false -> run c w = w.
Proof.
  intros Hfail.
  destruct (run_step c w)
    as [[Hsame _] | [(a & b & q & d & -> & H) | (a & s & r0 & -> & H)]];
    [exact Hsame | exfalso | exfalso].
  - destruct H as (_ & _ & _ & _ & _ & Hrun & _).
    cbn [exec] in Hfail. unfold bind in Hfail. rewrite Hrun in Hfail.
    discriminate Hfail.
  - destruct H as (_ & _ & _ & Hrun & _).
    cbn [exec] in Hfail. unfold bind in Hfail. rewrite Hrun in Hfail.
    discriminate Hfail.
Qed.

(** X10.  In a reachable state, after [update_order_status] has returned the
    dictionary [d], the listing of [get_orders_by_status] for [s] holds an
    order with the updated [order_id] exactly when [s] is the new status, and
    then it holds [d]. *)
Theorem update_order_status_moves_the_order
    (w : World) (order_id new_status : PyVal) (d : OrderData) (s : string) :
  reachable w -> s <> "" ->
  let r := OrderTracker.update_order_status order_id new_status w in
  returned r = Some (Some d) ->
  exists l,
    OrderTracker.get_orders_by_status (PyStr s) (final r) = Ok l (final r) /\
    ((exists x, In x l /\ data_order_id x = str_value order_id) <->
     s = str_value new_status) /\
    (s = str_value new_status -> In d l).
Proof.
  intros Hreach Hs r Hret. subst r.
  destruct (update_order_status_some_inv _ _ _ _ Hret) as (Ha & Hst & r0 & Hget).
  destruct (update_order_status_reachable w _ _ r0 Hreach Ha Hst Hget)
    as (w' & Hrun & Hreach' & Horders & Hheap).
  rewrite Hrun in *. cbn [final returned] in *. injection Hret as <-.
  destruct (reachable_storage_ok w' Hreach') as (Hkeys & _ & Hall).
  assert (Hget' : dict_get (orders w') (str_value order_id) = Some r0)
    by now rewrite Horders.
  assert (Hnew : heap w' r0 =
                 set_updated_at (Some (clock w (ticks w)))
                   (set_status (str_value new_status) (heap w r0)))
    by now rewrite Hheap, Nat.eqb_refl.
  eexists. split.
  { apply get_orders_by_status_valid. now apply nonempty_str_PyStr. }
  cbn [str_value].
  assert (Hin_l : forall x,
             In x (map (fun r => Order.as_dict (heap w' r))
                       (filter (fun r => (status (heap w' r) =? s)%string)
                               (dict_values (orders w')))) <->
             exists k r, In (k, r) (orders w') /\ status (heap w' r) = s /\
                         x = Order.as_dict (heap w' r)).
  { intros x. rewrite in_map_iff. split.
    - intros (r & <- & Hr). apply filter_In in Hr. destruct Hr as (Hr & Hstat).
      unfold dict_values in Hr. apply in_map_iff in Hr.
      destruct Hr as ([k r'] & <- & Hin). exists k, r'.
      apply String.eqb_eq in Hstat. now repeat split.
    - intros (k & r & Hin & Hstat & ->). exists r. split; [reflexivity|].
      apply filter_In. split.
      + unfold dict_values. apply in_map_iff. now exists (k, r).
      + now apply String.eqb_eq. }
  split; [split|].
  - intros (x & Hx & Hid). apply Hin_l in Hx.
    destruct Hx as (k & r & Hin & Hstat & ->). cbn in Hid.
    destruct (Hall k r Hin) as (_ & Hid' & _).
    assert (Hk : k = str_value order_id) by congruence.
    rewrite Hk in Hin. rewrite (dict_In_get _ _ _ Hkeys Hin) in Hget'.
    injection Hget' as ->. rewrite Hnew in Hstat. cbn in Hstat. congruence.
  - intros ->. exists (Order.as_dict (heap w' r0)). split.
    + apply Hin_l. exists (str_value order_id), r0.
      split; [now apply dict_get_In|]. split; [|reflexivity].
      now rewrite Hnew.
    + cbn. now destruct (Hall _ _ (dict_get_In _ _ _ Hget')) as (_ & Hid & _).
  - intros ->. rewrite <- Hnew. apply Hin_l.
    exists (str_value order_id), r0.
    split; [now apply dict_get_In|]. split; [|reflexivity].
    now rewrite Hnew.
Qed.

(** ** The storage on its own *)

(** X11.  [save_order] files the order under its own [order_id]: a
    [get_order] that follows gives that order for this key and, for any other
    key, what was stored before; no object is changed. *)
Theorem save_order_then_get_order (w : World) (order : ref) (k : string) :
  (InMemoryStorage.save_order order ;; InMemoryStorage.get_order k) w =
  Ok (if (order_id (heap w order) =? k)%string then Some order
      else dict_get (orders w) k)
     (final (InMemoryStorage.save_order order w)) /\
  heap (final (InMemoryStorage.save_order order w)) = heap w.
Proof.
  unfold InMemoryStorage.save_order, InMemoryStorage.get_order, deref,
    get_orders, put_orders, ret, bind. cbn.
  split; [|reflexivity]. f_equal.
  destruct (String.eqb_spec (order_id (heap w order)) k) as [->|Hne].
  - apply dict_get_set_same.
  - now apply dict_get_set_other.
Qed.

Lemma delete_order_run (w : World) (k : string) :
  exists w',
    InMemoryStorage.delete_order k w = Ok (dict_mem (orders w) k) w' /\
    clock w' = clock w /\ ticks w' = ticks w /\ heap w' = heap w /\
    next_ref w' = next_ref w /\
    orders w' = dict_del (orders w) k /\
    (dict_mem (orders w) k = false -> w' = w).
Proof.
  unfold InMemoryStorage.delete_order, get_orders, put_orders, ret, bind.
  destruct (dict_mem (orders w) k) eqn:Hmem.
  - eexists. split; [reflexivity|]. cbn. now repeat split.
  - exists w. split; [reflexivity|]. repeat split.
    unfold dict_mem in Hmem. symmetry. apply dict_del_absent.
    destruct (dict_get (orders w) k); [discriminate | reflexivity].
Qed.

(** X12.  [delete_order] returns whether the key was stored; afterwards the
    key is not stored, every other key gives what it gave before, and no
    object is changed; when the key was not stored the state is unchanged. *)
Theorem delete_order_removes_one_key (w : World) (k : string) :
  exists w',
    InMemoryStorage.delete_order k w = Ok (dict_mem (orders w) k) w' /\
    heap w' = heap w /\
    (dict_mem (orders w) k = false -> w' = w) /\
    InMemoryStorage.get_order k w' = Ok None w' /\
    forall k', k' <> k ->
      InMemoryStorage.get_order k' w' = Ok (dict_get (orders w) k') w'.
Proof.
  destruct (delete_order_run w k)
    as (w' & Hrun & _ & _ & Hheap & _ & Horders & Hsame).
  exists w'. split; [exact Hrun|]. split; [exact Hheap|].
  split; [exact Hsame|].
  unfold InMemoryStorage.get_order, get_orders, ret, bind. rewrite Horders.
  split; [now rewrite dict_get_del_same|].
  intros k' Hk'. rewrite dict_get_del_other; [reflexivity | congruence].
Qed.

Lemma create_order_fresh_state (w : World) (a b q c : PyVal) :
  nonempty_str a = true -> nonempty_str b = true ->
  positive_int q = true -> nonempty_str c = true ->
  dict_get (orders w) (str_value a) = None ->
  is_ok (OrderTracker.create_order a b q c w) = true.
Proof.
  intros Ha Hb Hq Hc Hfresh.
  destruct (create_order_valid w a b q c Ha Hb Hq Hc Hfresh) as (w' & Hrun & _).
  now rewrite Hrun.
Qed.

(** X13.  After [delete_order] on an identifier, the tracker's [get_order]
    and [update_order_status] on it return [None], and [create_order] with it
    and valid other arguments returns. *)
Theorem delete_order_frees_the_identifier
    (w : World) (order_id item_name quantity customer_id new_status : PyVal) :
  nonempty_str order_id = true -> nonempty_str item_name = true ->
  positive_int quantity = true -> nonempty_str customer_id = true ->
  nonempty_str new_status = true ->
  let w' := final (InMemoryStorage.delete_order (str_value order_id) w) in
  OrderTracker.get_order order_id w' = Ok None w' /\
  OrderTracker.update_order_status order_id new_status w' = Ok None w' /\
  is_ok (OrderTracker.create_order order_id item_name quantity customer_id w')
    = true.
Proof.
  intros Ha Hb Hq Hc Hs w'.
  assert (Hgone : dict_get (orders w') (str_value order_id) = None).
  { subst w'.
    destruct (delete_order_run w (str_value order_id))
      as (w1 & Hrun & _ & _ & _ & _ & Horders & _).
    rewrite Hrun. cbn [final]. rewrite Horders. apply dict_get_del_same. }
  split; [|split].
  - rewrite get_order_valid by assumption. now rewrite Hgone.
  - now apply update_order_status_unknown.
  - now apply create_order_fresh_state.
Qed.

(** X14.  After [clear] the tracker is over an empty storage again:
    [get_all_orders] lists nothing, [get_order] returns [None] and
    [create_order] with valid arguments returns, whatever was stored
    before. *)
Theorem clear_empties_the_storage
    (w : World) (order_id item_name quantity customer_id : PyVal) :
  nonempty_str order_id = true -> nonempty_str item_name = true ->
  positive_int quantity = true -> nonempty_str customer_id = true ->
  let w' := final (InMemoryStorage.clear w) in
  reachable w' /\
  OrderTracker.get_all_orders w' = Ok [] w' /\
  OrderTracker.get_order order_id w' = Ok None w' /\
  is_ok (OrderTracker.create_order order_id item_name quantity customer_id w')
    = true.
Proof.
  intros Ha Hb Hq Hc w'.
  assert (Hempty : orders w' = []) by reflexivity.
  split; [now apply reach_init|].
  split; [now rewrite get_all_orders_run, Hempty|].
  split.
  - rewrite get_order_valid by assumption. now rewrite Hempty.
  - apply create_order_fresh_state; try assumption. now rewrite Hempty.
Qed.

(** ** Building an order from a dictionary *)

Lemma parse_timestamp_skips (x : option string) (w : World) :
  x = None \/ x = Some "" -> Order.parse_timestamp x w = Ok None w.
Proof. intros [-> | ->]; reflexivity. Qed.

(** X15.  [from_dict] on a dictionary whose timestamps are either absent or
    the ISO text of a datetime builds a new object, not filed in the storage,
    with the fields of the dictionary, the status ["pending"] when the
    dictionary has none, the timestamps it was given, and for each absent
    timestamp the next reading of the clock, [created_at] first. *)
Theorem from_dict_stamps_missing_timestamps
    (w : World) (data : OrderData) (c u : option datetime.t) :
  data_created_at data = Order.isoformat_opt c ->
  data_updated_at data = Order.isoformat_opt u ->
  (forall d, c = Some d -> datetime.valid d = true) ->
  (forall d, u = Some d -> datetime.valid d = true) ->
  let reads_c := match c with Some _ => 0 | None => 1 end in
  let reads_u := match u with Some _ => 0 | None => 1 end in
  exists w',
    Order.from_dict data w = Ok (next_ref w) w' /\
    heap w' (next_ref w) =
      mkOrder (data_order_id data) (data_item_name data) (data_quantity data)
              (data_customer_id data)
              (match data_status data with Some s => s | None => "pending" end)
              (Some (match c with Some d => d | None => clock w (ticks w) end))
              (Some (match u with
                     | Some d => d
                     | None => clock w (ticks w + reads_c)
                     end)) /\
    ticks w' = ticks w + reads_c + reads_u /\
    orders w' = orders w.
Proof.
  intros Hc Hu Hvc Hvu reads_c reads_u. subst reads_c reads_u.
  unfold Order.from_dict. rewrite Hc, Hu.
  assert (Hparse : forall (x : option datetime.t) w0,
             (forall d, x = Some d -> datetime.valid d = true) ->
             Order.parse_timestamp (Order.isoformat_opt x) w0 = Ok x w0).
  { intros [d|] w0 Hv; [|reflexivity].
    cbn [Order.isoformat_opt]. apply parse_timestamp_isoformat. now apply Hv. }
  unfold bind at 1. rewrite (Hparse c w Hvc).
  unfold bind at 1. rewrite (Hparse u w Hvu).
  unfold Order.init, Order.post_init, alloc, deref, assign, now, ret, bind.
  cbn. repeat (rewrite Nat.eqb_refl; cbn).
  destruct c as [dc|], u as [du|]; cbn; repeat (rewrite Nat.eqb_refl; cbn);
    eexists; (split; [reflexivity|]); cbn; rewrite ?Nat.eqb_refl;
    rewrite ?Nat.add_0_r, ?Nat.add_1_r; repeat split.
Qed.

(** ** The request handlers *)

Lemma required_fields_present (d : dict PyVal) :
  existsb (fun field => negb (dict_mem d field)) App.required_fields = false ->
  exists a b q c,
    dict_get d "order_id" = Some a /\ dict_get d "item_name" = Some b /\
    dict_get d "quantity" = Some q /\ dict_get d "customer_id" = Some c.
Proof.
  unfold App.required_fields, dict_mem. cbn [existsb].
  destruct (dict_get d "order_id") as [a|]; [|discriminate].
  destruct (dict_get d "item_name") as [b|]; [|discriminate].
  destruct (dict_get d "quantity") as [q|]; [|discriminate].
  destruct (dict_get d "customer_id") as [c|]; [|discriminate].
  intros _. now exists a, b, q, c.
Qed.

Lemma create_endpoint_cases (data : option (dict PyVal)) (w : World) :
  App.create_order data w = (App.bad_request, w) \/
  exists order_id item_name quantity customer_id order w',
    dict_get (App.members data) "order_id" = Some order_id /\
    dict_get (App.members data) "item_name" = Some item_name /\
    dict_get (App.members data) "quantity" = Some quantity /\
    dict_get (App.members data) "customer_id" = Some customer_id /\
    OrderTracker.create_order order_id item_name quantity customer_id w =
      Ok order w' /\
    App.create_order data w = ((App.JOrder order, 201), w').
Proof.
  unfold App.create_order.
  destruct (App.no_data data); [now left|].
  destruct (existsb _ App.required_fields) eqn:Hfields; [now left|].
  destruct (required_fields_present _ Hfields)
    as (a & b & q & c & Ha & Hb & Hq & Hc).
  rewrite Ha, Hb, Hq, Hc.
  destruct (OrderTracker.create_order a b q c w) as [order w'|[msg] w'] eqn:Hrun.
  - right. now exists a, b, q, c, order, w'.
  - left. now rewrite (create_order_raise_keeps_state _ _ _ _ _ _ _ Hrun).
Qed.

(** X16.  For a request whose body [request.get_json()] has parsed as a
    JSON object, the creation handler answers 201 with an order as body, or
    it answers with the Bad request error, code 400, and leaves the state as
    it was. *)
Theorem create_endpoint_answers (data : dict PyVal) (w : World) :
  (snd (fst (App.create_order (Some data) w)) = 201 /\
   exists order, fst (fst (App.create_order (Some data) w)) = App.JOrder order) \/
  (fst (App.create_order (Some data) w) = App.bad_request /\
   snd (App.create_order (Some data) w) = w).
Proof.
  destruct (create_endpoint_cases (Some data) w)
    as [-> | (a & b & q & c & order & w' & _ & _ & _ & _ & _ & ->)].
  - now right.
  - left. split; [reflexivity | now exists order].
Qed.

(** X17.  For a body that has the four required members, the creation
    handler answers 201 when the members pass the checks of [create_order]
    and the identifier is not stored, and 400 otherwise. *)
Theorem create_endpoint_accepts
    (data : dict PyVal) (w : World)
    (order_id item_name quantity customer_id : PyVal) :
  dict_get data "order_id" = Some order_id ->
  dict_get data "item_name" = Some item_name ->
  dict_get data "quantity" = Some quantity ->
  dict_get data "customer_id" = Some customer_id ->
  snd (fst (App.create_order (Some data) w)) =
  if nonempty_str order_id && nonempty_str item_name &&
     positive_int quantity && nonempty_str customer_id &&
     negb (dict_mem (orders w) (str_value order_id))
  then 201 else 400.
Proof.
  intros Ha Hb Hq Hc. unfold App.create_order.
  assert (Hdata : App.no_data (Some data) = false)
    by (destruct data; [discriminate Ha | reflexivity]).
  rewrite Hdata. cbn [App.members].
  assert (Hfields : existsb (fun field => negb (dict_mem data field))
                            App.required_fields = false)
    by (unfold App.required_fields, dict_mem; cbn [existsb];
        now rewrite Ha, Hb, Hq, Hc).
  rewrite Hfields, Ha, Hb, Hq, Hc.
  destruct (nonempty_str order_id) eqn:Ea;
    [|now checks_fail].
  destruct (nonempty_str item_name) eqn:Eb;
    [|now checks_fail].
  destruct (positive_int quantity) eqn:Eq;
    [|now checks_fail].
  destruct (nonempty_str customer_id) eqn:Ec;
    [|now checks_fail].
  unfold dict_mem.
  destruct (dict_get (orders w) (str_value order_id)) as [r|] eqn:Hget.
  - now rewrite (create_order_conflict w _ _ _ _ r).
  - destruct (create_order_valid w _ _ _ _ Ea Eb Eq Ec Hget) as (w' & Hrun & _).
    now rewrite Hrun.
Qed.

(** X18.  When the creation handler answers 201, its body is an order whose
    [order_id] is the string the request gave, and the lookup handler on that
    identifier then answers 200 with the same body and leaves the state as it
    is. *)
Theorem create_endpoint_then_get_endpoint
    (data : option (dict PyVal)) (w : World) :
  snd (fst (App.create_order data w)) = 201 ->
  exists order,
    fst (fst (App.create_order data w)) = App.JOrder order /\
    dict_get (App.members data) "order_id" = Some (PyStr (data_order_id order)) /\
    App.get_order (data_order_id order) (snd (App.create_order data w)) =
      ((App.JOrder order, 200), snd (App.create_order data w)).
Proof.
  intros Hcode.
  destruct (create_endpoint_cases data w)
    as [Hbad | (a & b & q & c & order & w' & Ha & _ & _ & _ & Hrun & Hok)];
    [rewrite Hbad in Hcode; discriminate Hcode|].
  rewrite Hok. cbn [fst snd]. exists order.
  split; [reflexivity|].
  destruct (create_order_ok_inv _ _ _ _ _ _ _ Hrun) as (Ea & Eb & Eq & Ec & Hfresh).
  destruct (create_order_valid w _ _ _ _ Ea Eb Eq Ec Hfresh)
    as (w1 & Hrun1 & _ & _ & Hheap & _ & Horders).
  rewrite Hrun in Hrun1. injection Hrun1 as -> <-.
  destruct (nonempty_str_value a Ea) as (Heq & Hne).
  cbn [Order.as_dict data_order_id order_id].
  split; [now rewrite <- Heq|].
  unfold App.get_order. rewrite get_order_str by assumption.
  rewrite Horders, dict_get_set_same. cbn [option_map].
  now rewrite Hheap, Nat.eqb_refl.
Qed.

(** X19.  The lookup handler leaves the state as it was and answers 400 for
    the empty identifier, 404 for an identifier that is not stored and 200
    with the stored order otherwise. *)
Theorem get_endpoint_answers (order_id : string) (w : World) :
  App.get_order order_id w =
  (if (order_id =? "")%string then App.bad_request
   else match dict_get (orders w) order_id with
        | Some r => (App.JOrder (Order.as_dict (heap w r)), 200)
        | None => App.not_found
        end, w).
Proof.
  unfold App.get_order.
  destruct (String.eqb_spec order_id "") as [->|Hne]; [reflexivity|].
  rewrite get_order_str by assumption.
  now destruct (dict_get (orders w) order_id).
Qed.

(** X20.  For a request whose body [request.get_json()] has parsed as a
    JSON object, the update handler answers 400, state unchanged, when the
    object has no ["status"] member, when the status is not a non-empty
    string or when the identifier is empty, and this before it looks the
    order up; then 404, state unchanged, for an identifier that is not
    stored; and 200 with the updated order otherwise. *)
Theorem update_endpoint_answers
    (order_id : string) (data : dict PyVal) (w : World) :
  App.update_order_status order_id (Some data) w =
  match dict_get data "status" with
  | None => (App.bad_request, w)
  | Some status =>
      if negb (nonempty_str status) || (order_id =? "")%string
      then (App.bad_request, w)
      else match dict_get (orders w) order_id with
           | None => (App.not_found, w)
           | Some r =>
               ((App.JOrder
                   (Order.as_dict
                      (set_updated_at (Some (clock w (ticks w)))
                         (set_status (str_value status) (heap w r)))), 200),
                final (OrderTracker.update_order_status (PyStr order_id)
                         status w))
           end
  end.
Proof.
  unfold App.update_order_status, dict_mem.
  destruct data as [|kv d]; cbn [App.no_data App.members orb];
    try reflexivity.
  destruct (dict_get (kv :: d) "status") as [status|]; [|reflexivity].
  cbn [negb orb].
  destruct (String.eqb_spec order_id "") as [->|Hne].
  - rewrite orb_true_r. now checks_fail.
  - rewrite orb_false_r.
    assert (Hoid : nonempty_str (PyStr order_id) = true)
      by now apply nonempty_str_PyStr.
    destruct (nonempty_str status) eqn:Hs; cbn [negb].
    + destruct (dict_get (orders w) order_id) as [r|] eqn:Hget.
      * destruct (update_order_status_found w (PyStr order_id) status r
                    Hoid Hs Hget) as (w' & Hrun & _).
        now rewrite Hrun.
      * now rewrite update_order_status_unknown.
    + now checks_fail.
Qed.

Lemma get_orders_by_customer_filter (w : World) (c : string) :
  c <> "" ->
  OrderTracker.get_orders_by_customer (PyStr c) w =
  Ok (filter (has_customer c)
        (map (fun r => Order.as_dict (heap w r)) (dict_values (orders w)))) w.
Proof.
  intros Hc.
  rewrite get_orders_by_customer_valid by now apply nonempty_str_PyStr.
  cbn [str_value]. f_equal.
  now apply (filter_map_as_dict (has_customer c)
               (fun o => (customer_id o =? c)%string)).
Qed.

Lemma get_orders_by_status_filter (w : World) (s : string) :
  s <> "" ->
  OrderTracker.get_orders_by_status (PyStr s) w =
  Ok (filter (has_status s)
        (map (fun r => Order.as_dict (heap w r)) (dict_values (orders w)))) w.
Proof.
  intros Hs.
  rewrite get_orders_by_status_valid by now apply nonempty_str_PyStr.
  cbn [str_value]. f_equal.
  now apply (filter_map_as_dict (has_status s)
               (fun o => (status o =? s)%string)).
Qed.

(** X21.  The listing handler always answers 200 and leaves the state as it
    was; with a non-empty [customer_id] argument the body holds the orders of
    that customer, their number and the argument; with no argument, or an
    empty one, it holds all orders and their number. *)
Theorem orders_endpoint_answers (customer_id : option string) (w : World) :
  exists all,
    OrderTracker.get_all_orders w = Ok all w /\
    App.get_all_orders customer_id w =
    (match customer_id with
     | Some (String a c) =>
         let orders := filter (has_customer (String a c)) all in
         (App.JOrdersBy orders (List.length orders) "customer_id" (String a c),
          200)
     | Some EmptyString | None => (App.JOrders all (List.length all), 200)
     end, w).
Proof.
  eexists. split; [apply get_all_orders_run|].
  unfold App.get_all_orders.
  destruct customer_id as [[|a c]|]; cbn [String.eqb negb].
  - now rewrite get_all_orders_run.
  - now rewrite get_orders_by_customer_filter.
  - now rewrite get_all_orders_run.
Qed.

(** X22.  For a non-empty status the status handler answers 200 with the
    orders of that status, their number and the status, and leaves the state
    as it was. *)
Theorem status_endpoint_answers (status : string) (w : World) :
  status <> "" ->
  exists all,
    OrderTracker.get_all_orders w = Ok all w /\
    App.get_orders_by_status status w =
    (App.JOrdersBy (filter (has_status status) all)
                   (List.length (filter (has_status status) all))
                   "status" status, 200, w).
Proof.
  intros Hs. eexists. split; [apply get_all_orders_run|].
  unfold App.get_orders_by_status.
  now rewrite get_orders_by_status_filter.
Qed.

Lemma reachable_final_exec (c : Call) (w : World) :
  reachable w -> reachable (final (exec c w)).
Proof. intros Hreach. now apply reach_step. Qed.

(** X23.  Every handler takes a state the tracker can reach to a state the
    tracker can reach, so what holds of those states holds for the
    service. *)
Theorem handlers_stay_reachable
    (w : World) (order_id status : string) (data : option (dict PyVal))
    (customer_id : option string) :
  reachable w ->
  reachable (snd (App.create_order data w)) /\
  reachable (snd (App.get_order order_id w)) /\
  reachable (snd (App.update_order_status order_id data w)) /\
  reachable (snd (App.get_all_orders customer_id w)) /\
  reachable (snd (App.get_orders_by_status status w)).
Proof.
  intros Hreach.
  pose proof (fun c => reachable_final_exec c w Hreach) as Hrun.
  split; [|split; [|split; [|split]]].
  - destruct (create_endpoint_cases data w)
      as [-> | (a & b & q & c & order & w' & _ & _ & _ & _ & Hcreate & ->)];
      [exact Hreach|].
    specialize (Hrun (CreateOrder a b q c)). cbn [exec] in Hrun.
    unfold bind in Hrun. now rewrite Hcreate in Hrun.
  - unfold App.get_order.
    specialize (Hrun (GetOrder (PyStr order_id))).
    cbn [exec] in Hrun. unfold bind in Hrun.
    now destruct (OrderTracker.get_order (PyStr order_id) w)
      as [[d|] w'|[msg] w'].
  - unfold App.update_order_status.
    destruct (App.no_data data || negb (dict_mem (App.members data) "status"));
      [exact Hreach|].
    destruct (dict_get (App.members data) "status") as [new_status|];
      [|exact Hreach].
    specialize (Hrun (UpdateOrderStatus (PyStr order_id) new_status)).
    cbn [exec] in Hrun. unfold bind in Hrun.
    now destruct (OrderTracker.update_order_status (PyStr order_id)
                    new_status w) as [[d|] w'|[msg] w'].
  - unfold App.get_all_orders.
    pose proof (Hrun GetAllOrders) as Hall.
    cbn [exec] in Hall. unfold bind in Hall.
    destruct customer_id as [c|].
    + destruct (negb (c =? "")%string).
      * specialize (Hrun (GetOrdersByCustomer (PyStr c))).
        cbn [exec] in Hrun. unfold bind in Hrun.
        now destruct (OrderTracker.get_orders_by_customer (PyStr c) w)
          as [l w'|[msg] w'].
      * now destruct (OrderTracker.get_all_orders w) as [l w'|e w'].
    + now destruct (OrderTracker.get_all_orders w) as [l w'|e w'].
  - unfold App.get_orders_by_status.
    specialize (Hrun (GetOrdersByStatus (PyStr status))).
    cbn [exec] in Hrun. unfold bind in Hrun.
    now destruct (OrderTracker.get_orders_by_status (PyStr status) w)
      as [l w'|[msg] w'].
Qed.

(** ** Instances *)

Lemma two_orders_world_reachable : reachable two_orders_world.
Proof. do 2 apply reach_step. exact one_order_world_reachable. Qed.

Lemma stored_orders_have_distinct_ids_witness :
  reachable two_orders_world /\
  exists all,
    OrderTracker.get_all_orders two_orders_world = Ok all two_orders_world /\
    NoDup (map data_order_id all).
Proof.
  split; [exact two_orders_world_reachable|].
  exact (stored_orders_have_distinct_ids two_orders_world
           two_orders_world_reachable).
Defined.

Lemma stored_orders_keep_validated_fields_witness :
  reachable two_orders_world /\
  exists all,
    OrderTracker.get_all_orders two_orders_world = Ok all two_orders_world /\
    forall d, In d all ->
      nonempty_str (PyStr (data_order_id d)) = true /\
      nonempty_str (PyStr (data_item_name d)) = true /\
      positive_int (data_quantity d) = true /\
      nonempty_str (PyStr (data_customer_id d)) = true /\
      (exists s, data_status d = Some s /\ s <> "") /\
      data_created_at d <> None /\ data_updated_at d <> None.
Proof.
  split; [exact two_orders_world_reachable|].
  exact (stored_orders_keep_validated_fields two_orders_world
           two_orders_world_reachable).
Defined.

Lemma get_order_agrees_with_listing_witness :
  let w := two_orders_world in
  let d := Order.as_dict (heap w 1) in
  reachable w /\
  exists all,
    OrderTracker.get_all_orders w = Ok all w /\
    (OrderTracker.get_order (PyStr "ORD002") w = Ok (Some d) w <->
     In d all /\ data_order_id d = "ORD002").
Proof.
  intros w d. split; [exact two_orders_world_reachable|].
  exact (get_order_agrees_with_listing w "ORD002" d two_orders_world_reachable).
Defined.

Lemma one_order_world_get_order :
  OrderTracker.get_order (PyStr "ORD001") one_order_world =
  Ok (Some (Order.as_dict (heap one_order_world 0))) one_order_world.
Proof.
  rewrite get_order_str by discriminate.
  replace (dict_get (orders one_order_world) "ORD001") with (Some 0)
    by (vm_compute; reflexivity).
  reflexivity.
Qed.

Lemma stored_orders_persist_witness :
  let w := one_order_world in
  let d := Order.as_dict (heap w 0) in
  let cs := [ UpdateOrderStatus (PyStr "ORD001") (PyStr "shipped");
              CreateOrder (PyStr "ORD002") (PyStr "Mouse") (PyInt 1)
                          (PyStr "CUST002") ] in
  OrderTracker.get_order (PyStr "ORD001") w = Ok (Some d) w /\
  exists d',
    OrderTracker.get_order (PyStr "ORD001") (runs cs w) =
      Ok (Some d') (runs cs w) /\
    data_order_id d' = data_order_id d /\
    data_item_name d' = data_item_name d /\
    data_quantity d' = data_quantity d /\
    data_customer_id d' = data_customer_id d /\
    data_created_at d' = data_created_at d.
Proof.
  intros w d cs. split; [exact one_order_world_get_order|].
  exact (stored_orders_persist w cs "ORD001" d one_order_world_reachable
           one_order_world_get_order).
Defined.

Lemma calls_change_only_the_named_order_witness :
  let w := one_order_world in
  let c := CreateOrder (PyStr "ORD002") (PyStr "Mouse") (PyInt 1)
                       (PyStr "CUST002") in
  names c "ORD001" = false /\
  is_ok (exec c w) = true /\
  returned (OrderTracker.get_order (PyStr "ORD001") (run c w)) =
  returned (OrderTracker.get_order (PyStr "ORD001") w).
Proof.
  intros w c.
  assert (Hnames : names c "ORD001" = false) by reflexivity.
  split; [exact Hnames|].
  split; [vm_compute; reflexivity|].
  exact (calls_change_only_the_named_order w c "ORD001"
           one_order_world_reachable Hnames).
Defined.

Lemma create_order_appends_to_listing_witness :
  let w := one_order_world in
  let r := OrderTracker.create_order (PyStr "ORD002") (PyStr "Mouse") (PyInt 1)
             (PyStr "CUST002") w in
  is_ok r = true /\
  exists all d,
    OrderTracker.get_all_orders w = Ok all w /\
    returned r = Some d /\
    OrderTracker.get_all_orders (final r) = Ok (all ++ [d])%list (final r).
Proof.
  intros w r.
  assert (Hok : is_ok r = true) by (vm_compute; reflexivity).
  split; [exact Hok|].
  exact (create_order_appends_to_listing w (PyStr "ORD002") (PyStr "Mouse")
           (PyInt 1) (PyStr "CUST002") one_order_world_reachable Hok).
Defined.

Lemma one_order_world_update :
  returned (OrderTracker.update_order_status (PyStr "ORD001") (PyStr "shipped")
              one_order_world) =
  Some (Some (Order.as_dict
                (set_updated_at (Some (us_clock 2))
                   (set_status "shipped" (heap one_order_world 0))))).
Proof. vm_compute. reflexivity. Qed.

Lemma update_order_status_rewrites_one_entry_witness :
  let w := one_order_world in
  let d := Order.as_dict
             (set_updated_at (Some (us_clock 2))
                (set_status "shipped" (heap w 0))) in
  let r := OrderTracker.update_order_status (PyStr "ORD001") (PyStr "shipped") w in
  returned r = Some (Some d) /\
  exists all,
    OrderTracker.get_all_orders w = Ok all w /\
    OrderTracker.get_all_orders (final r) =
      Ok (map (fun x => if (data_order_id x =? "ORD001")%string
                        then d else x) all) (final r).
Proof.
  intros w d r. split; [exact one_order_world_update|].
  exact (update_order_status_rewrites_one_entry w (PyStr "ORD001")
           (PyStr "shipped") d one_order_world_reachable one_order_world_update).
Defined.

Lemma raising_calls_leave_the_state_witness :
  let c := CreateOrder (PyStr "ORD001") (PyStr "Mouse") (PyInt 1)
                       (PyStr "CUST002") in
  is_ok (exec c one_order_world) = false /\
  run c one_order_world = one_order_world.
Proof.
  intros c.
  assert (Hfail : is_ok (exec c one_order_world) = false)
    by (vm_compute; reflexivity).
  split; [exact Hfail|].
  exact (raising_calls_leave_the_state c one_order_world Hfail).
Defined.

Lemma update_order_status_moves_the_order_witness :
  let w := one_order_world in
  let d := Order.as_dict
             (set_updated_at (Some (us_clock 2))
                (set_status "shipped" (heap w 0))) in
  let r := OrderTracker.update_order_status (PyStr "ORD001") (PyStr "shipped") w in
  returned r = Some (Some d) /\
  exists l,
    OrderTracker.get_orders_by_status (PyStr "pending") (final r) =
      Ok l (final r) /\
    ((exists x, In x l /\ data_order_id x = "ORD001") <-> "pending" = "shipped") /\
    ("pending" = "shipped" -> In d l).
Proof.
  intros w d r. split; [exact one_order_world_update|].
  refine (update_order_status_moves_the_order w (PyStr "ORD001")
            (PyStr "shipped") d "pending" one_order_world_reachable _
            one_order_world_update).
  discriminate.
Defined.

Lemma delete_order_frees_the_identifier_witness :
  let w' := final (InMemoryStorage.delete_order "ORD001" one_order_world) in
  OrderTracker.get_order (PyStr "ORD001") w' = Ok None w' /\
  OrderTracker.update_order_status (PyStr "ORD001") (PyStr "shipped") w' =
    Ok None w' /\
  is_ok (OrderTracker.create_order (PyStr "ORD001") (PyStr "Mouse") (PyInt 1)
           (PyStr "CUST002") w') = true.
Proof.
  apply (delete_order_frees_the_identifier one_order_world (PyStr "ORD001")
           (PyStr "Mouse") (PyInt 1) (PyStr "CUST002") (PyStr "shipped"));
    reflexivity.
Defined.

Lemma clear_empties_the_storage_witness :
  let w' := final (InMemoryStorage.clear two_orders_world) in
  reachable w' /\
  OrderTracker.get_all_orders w' = Ok [] w' /\
  OrderTracker.get_order (PyStr "ORD001") w' = Ok None w' /\
  is_ok (OrderTracker.create_order (PyStr "ORD001") (PyStr "Mouse") (PyInt 1)
           (PyStr "CUST002") w') = true.
Proof.
  apply (clear_empties_the_storage two_orders_world (PyStr "ORD001")
           (PyStr "Mouse") (PyInt 1) (PyStr "CUST002"));
    reflexivity.
Defined.

Lemma from_dict_stamps_missing_timestamps_witness :
  let w := empty_world us_clock in
  exists w',
    Order.from_dict bare_data w = Ok 0 w' /\
    heap w' 0 =
      mkOrder "ORD009" "Pen" (PyInt 3) "CUST009" "pending"
              (Some (us_clock 0)) (Some (us_clock 1)) /\
    ticks w' = 2 /\
    orders w' = [].
Proof.
  refine (from_dict_stamps_missing_timestamps (empty_world us_clock) bare_data
            None None _ _ _ _); try reflexivity; discriminate.
Defined.

Lemma create_endpoint_accepts_witness :
  dict_get sample_body "order_id" = Some (PyStr "ORD002") /\
  snd (fst (App.create_order (Some sample_body) one_order_world)) = 201.
Proof.
  split; [reflexivity|].
  exact (create_endpoint_accepts sample_body one_order_world
           (PyStr "ORD002") (PyStr "Mouse") (PyInt 1) (PyStr "CUST002")
           eq_refl eq_refl eq_refl eq_refl).
Defined.

Lemma create_endpoint_then_get_endpoint_witness :
  let r := App.create_order (Some sample_body) one_order_world in
  snd (fst r) = 201 /\
  exists order,
    fst (fst r) = App.JOrder order /\
    dict_get sample_body "order_id" = Some (PyStr (data_order_id order)) /\
    App.get_order (data_order_id order) (snd r) =
      ((App.JOrder order, 200), snd r).
Proof.
  intros r.
  assert (Hcode : snd (fst r) = 201) by (vm_compute; reflexivity).
  split; [exact Hcode|].
  exact (create_endpoint_then_get_endpoint (Some sample_body) one_order_world
           Hcode).
Defined.

Lemma status_endpoint_answers_witness :
  let w := two_orders_world in
  exists all,
    OrderTracker.get_all_orders w = Ok all w /\
    App.get_orders_by_status "shipped" w =
    (App.JOrdersBy (filter (has_status "shipped") all)
                   (List.length (filter (has_status "shipped") all))
                   "status" "shipped", 200, w).
Proof.
  refine (status_endpoint_answers "shipped" two_orders_world _). discriminate.
Defined.

Lemma handlers_stay_reachable_witness :
  let w := one_order_world in
  reachable w /\
  reachable (snd (App.create_order (Some sample_body) w)) /\
  reachable (snd (App.get_order "ORD001" w)) /\
  reachable (snd (App.update_order_status "ORD001" (Some sample_body) w)) /\
  reachable (snd (App.get_all_orders (Some "CUST001") w)) /\
  reachable (snd (App.get_orders_by_status "pending" w)).
Proof.
  intros w. split; [exact one_order_world_reachable|].
  exact (handlers_stay_reachable w "ORD001" "pending" (Some sample_body)
           (Some "CUST001") one_order_world_reachable).
Defined.
